(** * guc-tuning: the trial adapter [pgbench] and its collaborators

    A shallow embedding of [main.py]: the two calls to the remote project
    API ([create_project], [delete_project]), the parser of the report
    that [pgbench --initialize] writes ([parse_pgbench_initialize_output])
    and the objective function [pgbench] that the optimizer calls once per
    trial point.

    Python text is modelled by [string], one character per code point
    below 256.  Exceptions are values of [exn]; effectful code lives in
    the monad [M], a state monad over [world] whose results are either a
    value or a raised exception. *)

From Stdlib Require Import String Ascii List Bool Arith ZArith QArith Lia.
From Stdlib Require Import DecimalString.
Import ListNotations.

Local Open Scope list_scope.
Local Open Scope string_scope.

(** ** Text *)

Module Text.

Definition code (c : ascii) : nat := nat_of_ascii c.

(** [\d] of the [re] module, on code points below 256: the ten ASCII
    digits. *)
Definition is_digit (c : ascii) : bool :=
  (48 <=? code c)%nat && (code c <=? 57)%nat.

(** The line boundaries of [str.splitlines] below code point 256:
    LF, VT, FF, CR, FS, GS, RS and NEL. *)
Definition is_line_boundary (c : ascii) : bool :=
  existsb (Nat.eqb (code c)) [10; 11; 12; 13; 28; 29; 30; 133]%nat.

Definition is_cr (c : ascii) : bool := (code c =? 13)%nat.
Definition is_lf (c : ascii) : bool := (code c =? 10)%nat.

Definition is_empty (s : string) : bool :=
  match s with EmptyString => true | String _ _ => false end.

(** [splitlines_from s cur after_cr]: [cur] is the line being read and
    [after_cr] says that the character just consumed was a CR, so that a
    LF that follows belongs to the same boundary. *)
Fixpoint splitlines_from (s cur : string) (after_cr : bool) : list string :=
  match s with
  | EmptyString => if is_empty cur then [] else [cur]
  | String c s' =>
      if after_cr && is_lf c then splitlines_from s' cur false
      else if is_line_boundary c then cur :: splitlines_from s' "" (is_cr c)
      else splitlines_from s' (cur ++ String c "") false
  end.

(** [output.splitlines()] *)
Definition splitlines (s : string) : list string := splitlines_from s "" false.

(** [s.startswith(p)], returning what follows the prefix. *)
Fixpoint strip_prefix (p s : string) : option string :=
  match p, s with
  | EmptyString, _ => Some s
  | String a p', String b s' =>
      if Ascii.eqb a b then strip_prefix p' s' else None
  | String _ _, EmptyString => None
  end.

Definition digit_value (c : ascii) : Z := Z.of_nat (code c) - 48.

Fixpoint digits_value (s : string) (acc : Z) : Z :=
  match s with
  | EmptyString => acc
  | String c s' => digits_value s' (10 * acc + digit_value c)
  end.

(** Splits a decimal numeral at its first point. *)
Fixpoint split_at_point (s : string) : string * string :=
  match s with
  | EmptyString => ("", "")
  | String c s' =>
      if Ascii.eqb c "." then ("", s')
      else let (i, f) := split_at_point s' in (String c i, f)
  end.

(** Decimal rendering of a natural number, as [str(n)] gives it. *)
Definition str_of_nat (n : nat) : string :=
  NilEmpty.string_of_uint (Nat.to_uint n).

End Text.

Import Text.

(** ** Python values *)

(** [float(v)] where [v] is the text of a group [(\d+\.\d+)]: the
    decimal it denotes, as a reduced fraction.  Python rounds this number
    to the nearest binary64; the properties below concern which values
    are bound, not their rounding. *)
Definition float (v : string) : Q :=
  let (i, f) := split_at_point v in
  Qred (Qmake (digits_value (i ++ f) 0)
              (Z.to_pos (10 ^ Z.of_nat (String.length f)))).

(** What the objective function hands to the optimizer. *)
Inductive pyval : Type :=
| PyInt (z : Z)
| PyFloat (q : Q).

(** Dictionaries keep their insertion order. *)
Definition dict (V : Type) : Type := list (string * V).

Fixpoint dict_get {V} (d : dict V) (key : string) : option V :=
  match d with
  | [] => None
  | (k, v) :: d' => if String.eqb k key then Some v else dict_get d' key
  end.

(** [d[key] = v] *)
Fixpoint dict_set {V} (d : dict V) (key : string) (v : V) : dict V :=
  match d with
  | [] => [(key, v)]
  | (k, w) :: d' =>
      if String.eqb k key then (k, v) :: d' else (k, w) :: dict_set d' key v
  end.

Definition keys {V} (d : dict V) : list string := map fst d.

Definition has_key {V} (d : dict V) (key : string) : bool :=
  existsb (String.eqb key) (keys d).

(** ** Regular expressions, as [re] runs them

    The fragment that [parse_pgbench_initialize_output] uses: literal
    text, [\d+], concatenation, the greedy optional [(?: ... )?] and
    capturing groups.  [run] is the backtracking search of [re]: it is
    written in continuation-passing style, [k w rest caps] being the rest
    of the pattern applied after [w] was consumed, [rest] is left and the
    groups hold [caps]; an answer [None] from [k] makes the search try the
    next alternative. *)

Module Re.

Inductive pattern : Type :=
| Lit (text : string)
| Digits                        (* \d+ *)
| Seq (r1 r2 : pattern)
| Opt (r : pattern)             (* (?: r )? *)
| Group (i : nat) (r : pattern). (* ( r ), the i-th group, from 0 *)

Definition captures : Type := list (option string).

Fixpoint set_group (i : nat) (w : string) (caps : captures) : captures :=
  match i, caps with
  | _, [] => []
  | O, _ :: caps' => Some w :: caps'
  | S i', c :: caps' => c :: set_group i' w caps'
  end.

Section Search.
Context {A : Type}.

(** Zero or more digits after [acc], longest first. *)
Fixpoint digits_star (s acc : string) (k : string -> string -> option A)
  : option A :=
  match s with
  | EmptyString => k acc s
  | String c s' =>
      if is_digit c then
        match digits_star s' (acc ++ String c "") k with
        | Some a => Some a
        | None => k acc s
        end
      else k acc s
  end.

Definition digits_plus (s : string) (k : string -> string -> option A)
  : option A :=
  match s with
  | EmptyString => None
  | String c s' =>
      if is_digit c then digits_star s' (String c "") k else None
  end.

Fixpoint run (r : pattern) (s : string) (caps : captures)
    (k : string -> string -> captures -> option A) : option A :=
  match r with
  | Lit text =>
      match strip_prefix text s with
      | Some rest => k text rest caps
      | None => None
      end
  | Digits => digits_plus s (fun w rest => k w rest caps)
  | Seq r1 r2 =>
      run r1 s caps (fun w1 s1 c1 =>
        run r2 s1 c1 (fun w2 s2 c2 => k (w1 ++ w2) s2 c2))
  | Opt r1 =>
      match run r1 s caps k with
      | Some a => Some a
      | None => k "" s caps
      end
  | Group i r1 =>
      run r1 s caps (fun w rest c => k w rest (set_group i w c))
  end.
End Search.

(** [regex.match(s)] for a pattern with [n] groups: the match is anchored
    at the start of [s] and may end anywhere; the answer is
    [m.groups()]. *)
Definition re_match (n : nat) (r : pattern) (s : string) : option captures :=
  run r s (repeat None n) (fun _ _ caps => Some caps).

(** [regex.fullmatch(s)]: the match must consume all of [s]. *)
Definition re_fullmatch (n : nat) (r : pattern) (s : string)
  : option captures :=
  run r s (repeat None n)
      (fun _ rest caps => if is_empty rest then Some caps else None).

Fixpoint seq (rs : list pattern) : pattern :=
  match rs with
  | [] => Lit ""
  | [r] => r
  | r :: rs' => Seq r (seq rs')
  end.

End Re.

Import Re.

(** [(\d+\.\d+)] as group [i] *)
Definition duration (i : nat) : pattern :=
  Group i (seq [Digits; Lit "."; Digits]).

(** [(?:<label> (\d+\.\d+) s)?(?:, )?] *)
Definition phase (label : string) (i : nat) : pattern :=
  Seq (Opt (seq [Lit label; duration i; Lit " s"])) (Opt (Lit ", ")).

(** The pattern compiled in [parse_pgbench_initialize_output]. *)
Definition regex : pattern :=
  seq [ Lit "done in "; duration 0; Lit " s ";
        Lit "(";
        phase "drop tables " 1;
        phase "create tables " 2;
        phase "server-side generate " 3;
        phase "vacuum " 4;
        phase "primary keys " 5;
        Lit ")." ].

(** ** Exceptions, the outside world and the monad of effects *)

(** The exceptions that the modelled code can meet.  Each one is a
    subclass of [Exception], so the clause [except Exception] of [pgbench]
    catches every one of them.  [LibraryError] stands for what [requests],
    [subprocess], [open], [unlink] and the JSON decoder raise on their own
    (connection failure, [CalledProcessError], [TimeoutExpired],
    [OSError], [JSONDecodeError]). *)
Inductive exn : Type :=
| RuntimeError (msg : string)
| IndexError
| KeyError (key : string)
| ValueError_unpack (expected got : nat)
| TypeError (msg : string)
| LibraryError (class_name msg : string).

(** [repr] of a text.  The text is put between apostrophes, or between
    double quotes when it holds an apostrophe and no double quote; the
    quote in use and the backslash are escaped, tab, line feed and
    carriage return become [\t], [\n] and [\r], and the other
    characters that are not printable become [\xhh]. *)
Definition apostrophe : ascii := "'"%char.
Definition double_quote : ascii := "034"%char.
Definition backslash : ascii := "\"%char.

Definition hex_digit (n : nat) : ascii :=
  nth n [ "0"; "1"; "2"; "3"; "4"; "5"; "6"; "7"; "8"; "9";
          "a"; "b"; "c"; "d"; "e"; "f" ]%char "0"%char.

(** [str.isprintable] below code point 256: not the controls, not the
    no-break space and not the soft hyphen. *)
Definition is_printable (c : ascii) : bool :=
  ((32 <=? code c)%nat && (code c <=? 126)%nat)
  || ((161 <=? code c)%nat && negb (code c =? 173)%nat).

Fixpoint contains (c : ascii) (s : string) : bool :=
  match s with
  | EmptyString => false
  | String x s' => Ascii.eqb x c || contains c s'
  end.

Definition repr_quote (s : string) : ascii :=
  if contains apostrophe s && negb (contains double_quote s)
  then double_quote else apostrophe.

Definition repr_char (quote c : ascii) : string :=
  if Ascii.eqb c quote || Ascii.eqb c backslash
  then String backslash (String c "")
  else if (code c =? 9)%nat then "\t"
  else if (code c =? 10)%nat then "\n"
  else if (code c =? 13)%nat then "\r"
  else if is_printable c then String c ""
  else "\x" ++ String (hex_digit (code c / 16))
                 (String (hex_digit (code c mod 16)) "").

Fixpoint repr_body (quote : ascii) (s : string) : string :=
  match s with
  | EmptyString => ""
  | String c s' => repr_char quote c ++ repr_body quote s'
  end.

Definition repr_str (s : string) : string :=
  let quote := repr_quote s in
  String quote (repr_body quote s ++ String quote "").

(** [str(exc)], what [print(exc)] shows. *)
Definition str_exn (x : exn) : string :=
  match x with
  | RuntimeError msg => msg
  | IndexError => "list index out of range"
  | KeyError key => repr_str key
  | ValueError_unpack expected got =>
      if (got <? expected)%nat then
        "not enough values to unpack (expected " ++ str_of_nat expected
          ++ ", got " ++ str_of_nat got ++ ")"
      else "too many values to unpack (expected " ++ str_of_nat expected ++ ")"
  | TypeError msg => msg
  | LibraryError _ msg => msg
  end.

Inductive result (A : Type) : Type :=
| Ok (a : A)
| Raise (x : exn).
Arguments Ok {A} a.
Arguments Raise {A} x.

(** What a run leaves behind, in order: the calls to the two functions of
    the project API with their normal returns, the programs started, the
    files unlinked and the lines printed. *)
Inductive event : Type :=
| Create_project_called (settings : dict string)
| Create_project_returned (project_id dsn : string)
| Delete_project_called (project_id : string)
| Delete_project_returned (project_id : string)
| Started (argv : list string)
| Unlinked (path : string)
| Printed (text : string).

Record world : Type := mkWorld {
  files : dict string;      (* the working directory: path and content *)
  trace : list event        (* oldest event first *)
}.

Definition M (A : Type) : Type := world -> result A * world.

Definition ret {A} (a : A) : M A := fun w => (Ok a, w).

Definition raise {A} (x : exn) : M A := fun w => (Raise x, w).

Definition bind {A B} (m : M A) (f : A -> M B) : M B :=
  fun w =>
    match m w with
    | (Ok a, w') => f a w'
    | (Raise x, w') => (Raise x, w')
    end.

Notation "x <- m ;; k" := (bind m (fun x => k))
  (at level 61, m at next level, right associativity).
Notation "' pat <- m ;; k" := (bind m (fun x => match x with pat => k end))
  (at level 61, pat pattern, m at next level, right associativity).
Notation "m ;; k" := (bind m (fun _ => k))
  (at level 61, right associativity).

(** [try: body / except Exception as exc: handler exc / finally: final].
    The value (or exception) that [body] or [handler] produced is what the
    statement gives once [final] has run, unless [final] raises: then its
    exception replaces it. *)
Definition try_except_finally {A} (body : M A) (handler : exn -> M A)
    (final : M unit) : M A :=
  fun w =>
    let (r1, w1) := body w in
    let (r2, w2) :=
      match r1 with
      | Ok a => (Ok a, w1)
      | Raise x => handler x w1
      end in
    let (r3, w3) := final w2 in
    match r3 with
    | Ok _ => (r2, w3)
    | Raise x => (Raise x, w3)
    end.

Definition emit (ev : event) : M unit :=
  fun w => (Ok tt, mkWorld (files w) (trace w ++ [ev])).

Definition print (text : string) : M unit := emit (Printed text).

Fixpoint dict_remove {V} (d : dict V) (key : string) : dict V :=
  match d with
  | [] => []
  | (k, v) :: d' =>
      if String.eqb k key then dict_remove d' key
      else (k, v) :: dict_remove d' key
  end.

(** Writing to a file that is open does not fail in the model; opening a
    file and unlinking one can ([open_w] and [unlink_error] of [env]
    below). *)
Definition write_file (path content : string) : M unit :=
  fun w => (Ok tt, mkWorld (dict_set (files w) path content) (trace w)).

(** [Path(path).read_text()] *)
Definition read_text (path : string) : M string :=
  fun w =>
    match dict_get (files w) path with
    | Some content => (Ok content, w)
    | None =>
        (Raise (LibraryError "FileNotFoundError"
                  ("[Errno 2] No such file or directory: "
                   ++ repr_str path)),
         w)
    end.

(** [xs[0]] and [xs[-1]] *)
Definition index_first {A} (xs : list A) : M A :=
  match xs with
  | [] => raise IndexError
  | x :: _ => ret x
  end.

Fixpoint last_opt {A} (xs : list A) : option A :=
  match xs with
  | [] => None
  | [x] => Some x
  | _ :: xs' => last_opt xs'
  end.

Definition index_last {A} (xs : list A) : M A :=
  match last_opt xs with
  | None => raise IndexError
  | Some x => ret x
  end.

(** ** The collaborators that the program does not control *)

(** The JSON document of a created project, as far as [create_project]
    reads it: [project["id"]], [project["roles"]] and, of each role,
    [role["name"]] and [role["dsn"]], all three being texts. *)
Record role : Type := mkRole { name : string; dsn : string }.

Record project : Type := mkProject { id : string; roles : list role }.

(** What goes wrong when [create_project] reads a document that has not
    this shape: a subscription [d[key]] of a dictionary without that key
    raises [KeyError]; a subscription or an iteration of a value that
    does not support it raises [TypeError]. *)
Inductive shape_error : Type :=
| Missing_key (key : string)
| Wrong_type (msg : string).

Definition exn_of_shape (s : shape_error) : exn :=
  match s with
  | Missing_key key => KeyError key
  | Wrong_type msg => TypeError msg
  end.

(** A decoded document: a project, or a document on which the first
    subscription or iteration that fails raises the given error. *)
Inductive document : Type :=
| Well_shaped (p : project)
| Ill_shaped (s : shape_error).

(** An HTTP response: [response.ok], [response.text] and what
    [response.json()] gives, the decoded body or the exception that the
    decoder raises on a body that is not JSON. *)
Record response (J : Type) : Type := mkResponse {
  ok : bool;
  text : string;
  json : result J
}.
Arguments mkResponse {J}.
Arguments ok {J}.
Arguments text {J}.
Arguments json {J}.

(** [requests.post] either raises or answers. *)
Inductive http (J : Type) : Type :=
| Failed (x : exn)
| Answered (r : response J).
Arguments Failed {J} x.
Arguments Answered {J} r.

(** A finished [subprocess.run(..., check=True, timeout=TIMEOUT)]: what
    the program wrote and the exception that [run] raised, if any
    ([CalledProcessError] on a nonzero status, [TimeoutExpired], an
    [OSError] when the program cannot be started). *)
Record process : Type := mkProcess {
  written_out : string;
  written_err : string;
  raised : option exn
}.

(** The behaviour of the outside during one trial. *)
Record env : Type := mkEnv {
  post_projects : dict string -> http document;
  post_delete : string -> http string;
  subprocess_run : list string -> process;
  open_w : string -> option exn;
  unlink_error : string -> option exn
}.

(** [response.json()] *)
Definition response_json {J} (r : response J) : M J :=
  match json r with
  | Ok j => ret j
  | Raise x => raise x
  end.

(** [Path(path).unlink(missing_ok=True)]: a missing file is no error;
    [unlink_error] is the exception of any other failure
    ([IsADirectoryError], [PermissionError]). *)
Definition unlink (e : env) (path : string) : M unit :=
  match unlink_error e path with
  | Some x => raise x
  | None =>
      emit (Unlinked path) ;;
      fun w => (Ok tt, mkWorld (dict_remove (files w) path) (trace w))
  end.

Definition requests_post {J} (answer : http J) : M (response J) :=
  match answer with
  | Failed x => raise x
  | Answered r => ret r
  end.

Fixpoint repr_items (d : dict string) : string :=
  match d with
  | [] => ""
  | [(k, v)] => repr_str k ++ ": " ++ repr_str v
  | (k, v) :: d' => repr_str k ++ ": " ++ repr_str v ++ ", " ++ repr_items d'
  end.

(** [repr] of a dictionary of texts. *)
Definition repr_dict (d : dict string) : string := "{" ++ repr_items d ++ "}".

(** ** The project API *)

Definition create_project (e : env) (settings : dict string)
  : M (string * string) :=
  emit (Create_project_called settings) ;;
  response <- requests_post (post_projects e settings) ;;
  if negb (ok response) then
    raise (RuntimeError ("Can't create project with settings="
                           ++ repr_dict settings ++ ", " ++ text response))
  else
    decoded <- response_json response ;;
    match decoded with
    | Ill_shaped s => raise (exn_of_shape s)
    | Well_shaped project =>
        first <- index_first
                   (map (fun role => dsn role ++ "/main")
                      (filter
                         (fun role =>
                            negb (String.eqb (name role) "web_access"))
                         (roles project))) ;;
        emit (Create_project_returned (id project) first) ;;
        ret (id project, first)
    end.

Definition delete_project (e : env) (project_id : string) : M string :=
  emit (Delete_project_called project_id) ;;
  response <- requests_post (post_delete e project_id) ;;
  if negb (ok response) then
    raise (RuntimeError ("Can't delete project with project_id="
                           ++ repr_str project_id ++ ", " ++ text response))
  else
    answer <- response_json response ;;
    emit (Delete_project_returned project_id) ;;
    ret answer.

(** ** The parser of the report *)

(** The members of [m.groups()] that are not [None]. *)
Fixpoint not_none {A} (xs : list (option A)) : list A :=
  match xs with
  | [] => []
  | Some x :: xs' => x :: not_none xs'
  | None :: xs' => not_none xs'
  end.

Definition parse_pgbench_initialize_output (output : string) : M (dict Q) :=
  last_line <- index_last (splitlines output) ;;
  match re_match 6 regex last_line with
  | Some groups =>
      match map float (not_none groups) with
      | [total; drop_tables; create_tables; server_side_generate; vacuum;
         primary_keys] =>
          ret [ ("total", total);
                ("drop_tables", drop_tables);
                ("create_tables", create_tables);
                ("server_side_generate", server_side_generate);
                ("vacuum", vacuum);
                ("primary_keys", primary_keys) ]
      | values => raise (ValueError_unpack 6 (List.length values))
      end
  | None =>
      print output ;;
      raise (RuntimeError "Something went wrong")
  end.

(** ** The objective function *)

Definition TIMEOUT : Z := 200.

(** [d[key]] *)
Definition subscript {V} (d : dict V) (key : string) : M V :=
  match dict_get d key with
  | Some v => ret v
  | None => raise (KeyError key)
  end.

(** [Path(path).open("w")], which creates or empties the file. *)
Definition path_open_w (e : env) (path : string) : M unit :=
  match open_w e path with
  | Some x => raise x
  | None => write_file path ""
  end.

(** [subprocess.run(argv, timeout=TIMEOUT, check=True)] with the streams
    of the parent. *)
Definition run_checked (e : env) (argv : list string) : M unit :=
  emit (Started argv) ;;
  match raised (subprocess_run e argv) with
  | Some x => raise x
  | None => ret tt
  end.

(** The same with [stdout=out, stderr=err], two files open for
    writing. *)
Definition run_checked_into (e : env) (argv : list string)
    (out err : string) : M unit :=
  emit (Started argv) ;;
  write_file out (written_out (subprocess_run e argv)) ;;
  write_file err (written_err (subprocess_run e argv)) ;;
  match raised (subprocess_run e argv) with
  | Some x => raise x
  | None => ret tt
  end.

Section Adapter.

(** The module [space] is not part of the sources at hand: the type of
    the values of a trial point, their rendering by [str], and the set
    [ALLOWED_SERVER_SETTINGS] are parameters. *)
Variable value : Type.
Variable str : value -> string.
Variable ALLOWED_SERVER_SETTINGS : list string.

Definition is_server_setting (name : string) : bool :=
  existsb (String.eqb name) ALLOWED_SERVER_SETTINGS.

(** One turn of the loop over [options.items()]. *)
Definition classify (settings : dict string * dict string)
    (item : string * value) : dict string * dict string :=
  let (server_settings, client_settings) := settings in
  let (name, v) := item in
  let v := str v in
  if is_server_setting name
  then (dict_set server_settings name v, client_settings)
  else (server_settings, dict_set client_settings name v).

Definition split_options (options : dict value)
  : dict string * dict string :=
  fold_left classify options ([], []).

Definition set_command_of (client_settings : dict string) : string :=
  fold_left
    (fun set_command kv =>
       set_command ++ "ALTER DATABASE main SET " ++ fst kv ++ "="
         ++ snd kv ++ ";")
    client_settings "".

(** The three blocks of the [try] statement of [pgbench]. *)
Definition measure (e : env) (dsn : string) (client_settings : dict string)
  : M pyval :=
  let stderr := "stderr.txt" in
  let stdout := "stdout.txt" in
  let set_command := set_command_of client_settings in
  run_checked e ["/opt/homebrew/bin/psql"; dsn; "-c"; set_command] ;;
  path_open_w e stderr ;;
  path_open_w e stdout ;;
  run_checked_into e
    ["/opt/homebrew/bin/pgbench"; dsn; "--initialize"; "--init-steps";
     "dtGvp"; "--scale"; "100"]
    stdout stderr ;;
  output <- read_text stderr ;;
  timings <- parse_pgbench_initialize_output output ;;
  total <- subscript timings "total" ;;
  ret (PyFloat total).

Definition penalize (exc : exn) : M pyval :=
  print (str_exn exc) ;;
  ret (PyInt TIMEOUT).

Definition cleanup (e : env) (project_id : string) : M unit :=
  delete_project e project_id ;;
  unlink e "stderr.txt" ;;
  unlink e "stdout.txt".

Definition pgbench (e : env) (options : dict value) : M pyval :=
  let (server_settings, client_settings) := split_options options in
  ' (project_id, dsn) <- create_project e server_settings ;;
  try_except_finally
    (measure e dsn client_settings)
    penalize
    (cleanup e project_id).

(** The optimizer evaluates [pgbench] at one point after the other; an
    exception that leaves [pgbench] ends the campaign. *)
Fixpoint campaign (trials : list (env * dict value)) : M (list pyval) :=
  match trials with
  | [] => ret []
  | (e, options) :: trials' =>
      y <- pgbench e options ;;
      ys <- campaign trials' ;;
      ret (y :: ys)
  end.

End Adapter.

(** The command line of the benchmark, as [pgbench] builds it. *)
Definition pgbench_argv (dsn : string) : list string :=
  ["/opt/homebrew/bin/pgbench"; dsn; "--initialize"; "--init-steps"; "dtGvp";
   "--scale"; "100"].

(** ** What a pattern matches

    [matches r w c c']: the text [w] is matched by [r], which turns the
    groups [c] into [c'].  This is the reading of a pattern that does not
    depend on the order of the search. *)

Fixpoint all_digits (s : string) : bool :=
  match s with
  | EmptyString => true
  | String c s' => is_digit c && all_digits s'
  end.

Inductive matches : pattern -> string -> captures -> captures -> Prop :=
| M_Lit text c : matches (Lit text) text c c
| M_Digits w c :
    w <> "" -> all_digits w = true -> matches Digits w c c
| M_Seq r1 r2 w1 w2 c c1 c2 :
    matches r1 w1 c c1 -> matches r2 w2 c1 c2 ->
    matches (Seq r1 r2) (w1 ++ w2) c c2
| M_Opt_skip r c : matches (Opt r) "" c c
| M_Opt_take r w c c' : matches r w c c' -> matches (Opt r) w c c'
| M_Group i r w c c' :
    matches r w c c' -> matches (Group i r) w c (set_group i w c').

(** A line has a matching prefix. *)
Definition prefix_matches (r : pattern) (n : nat) (line : string) : Prop :=
  exists w rest c, line = w ++ rest /\ matches r w (repeat None n) c.

(** A decimal numeral [\d+\.\d+]. *)
Definition decimal (d : string) : Prop :=
  exists i f, d = i ++ "." ++ f /\ i <> "" /\ f <> ""
              /\ all_digits i = true /\ all_digits f = true.

Definition separator (s : string) : Prop := s = "" \/ s = ", ".

(** A report with the total and the five sub-phases, [s1] to [s5] being
    what stands after each clause. *)
Definition full_line (t a b c g h s1 s2 s3 s4 s5 : string) : string :=
  "done in " ++ t ++ " s (" ++
  "drop tables " ++ a ++ " s" ++ s1 ++
  "create tables " ++ b ++ " s" ++ s2 ++
  "server-side generate " ++ c ++ " s" ++ s3 ++
  "vacuum " ++ g ++ " s" ++ s4 ++
  "primary keys " ++ h ++ " s" ++ s5 ++ ").".

Definition timings_of (t a b c g h : string) : dict Q :=
  [ ("total", float t);
    ("drop_tables", float a);
    ("create_tables", float b);
    ("server_side_generate", float c);
    ("vacuum", float g);
    ("primary_keys", float h) ].

Definition six_keys : list string :=
  ["total"; "drop_tables"; "create_tables"; "server_side_generate";
   "vacuum"; "primary_keys"].

(** ** Outcomes

    What a computation returns or raises when it starts from the empty
    world.  The functions of the project API and the [try] block of
    [pgbench] give the same outcome from every world ([create_project_at],
    [delete_project_at], [measure_at] below). *)
Definition outcome {A} (m : M A) : result A := fst (m (mkWorld [] [])).

(** What the [try] statement of [pgbench] yields for an outcome of its
    first block. *)
Definition score_of (r : result pyval) : pyval :=
  match r with
  | Ok y => y
  | Raise _ => PyInt TIMEOUT
  end.

(** ** Counting on traces *)

Definition count (p : event -> bool) (tr : list event) : nat :=
  List.length (filter p tr).

Definition is_destroy_call (ev : event) : bool :=
  match ev with Delete_project_called _ => true | _ => false end.

Definition is_destroy_of (project_id : string) (ev : event) : bool :=
  match ev with
  | Delete_project_called p => String.eqb p project_id
  | _ => false
  end.

Definition is_provisioned (ev : event) : bool :=
  match ev with Create_project_returned _ _ => true | _ => false end.

Definition is_unlink_of (path : string) (ev : event) : bool :=
  match ev with
  | Unlinked p => String.eqb p path
  | _ => false
  end.

(** Events that touch neither the project API nor the file names. *)
Definition is_report (ev : event) : bool :=
  match ev with Started _ | Printed _ => true | _ => false end.

(** The events of a run from [w] to [w']. *)
Definition since (w w' : world) : list event :=
  skipn (List.length (trace w)) (trace w').

(** ** The grammar of the report, in the words of the specification

    ["done in <total> s (" <optional comma-separated sub-phase clauses>
    ")."], a clause being ["<label> <duration> s"], the sub-phases a
    subset of the five in their canonical order, the durations decimals;
    the line is the whole of it. *)

Module Grammar.

Definition labels : list string :=
  ["drop tables"; "create tables"; "server-side generate"; "vacuum";
   "primary keys"].

Fixpoint sublists {A} (xs : list A) : list (list A) :=
  match xs with
  | [] => [[]]
  | x :: xs' => map (cons x) (sublists xs') ++ sublists xs'
  end.

Definition clause (label : string) : pattern :=
  seq [Lit label; Lit " "; Digits; Lit "."; Digits; Lit " s"].

Fixpoint comma_separated (clauses : list pattern) : pattern :=
  match clauses with
  | [] => Lit ""
  | [c] => c
  | c :: clauses' => Seq c (Seq (Lit ", ") (comma_separated clauses'))
  end.

Definition line_with (present : list string) : pattern :=
  seq [Lit "done in "; Digits; Lit "."; Digits; Lit " s (";
       comma_separated (map clause present); Lit ")."].

Definition is_some {A} (o : option A) : bool :=
  match o with Some _ => true | None => false end.

Definition conforms (line : string) : bool :=
  existsb (fun present => is_some (re_fullmatch 0 (line_with present) line))
          (sublists labels).

End Grammar.

(** ** Scenarios: concrete behaviours of the outside *)

Module Scenario.

Definition full_report : string :=
  "done in 12.50 s (drop tables 1.00 s, create tables 2.00 s, "
  ++ "server-side generate 5.50 s, vacuum 3.00 s, primary keys 0.01 s).".

Definition partial_report : string :=
  "done in 12.50 s (drop tables 1.00 s, create tables 2.00 s, vacuum 3.00 s).".

(** The full report followed by more text on the same line. *)
Definition trailing_report : string := full_report ++ " (see the log)".

(** The full report without the separators between the clauses. *)
Definition unseparated_report : string :=
  "done in 12.50 s (drop tables 1.00 screate tables 2.00 s"
  ++ "server-side generate 5.50 svacuum 3.00 sprimary keys 0.01 s).".

Definition two_roles : project :=
  mkProject "proj-1"
    [ mkRole "web_access" "postgres://web@host";
      mkRole "alice" "postgres://alice@host" ].

Definition created : http document :=
  Answered (mkResponse true "" (Ok (Well_shaped two_roles))).

Definition no_json : exn :=
  LibraryError "JSONDecodeError" "Expecting value: line 1 column 1 (char 0)".

Definition refused {J} (why : string) : http J :=
  Answered (mkResponse false why (Raise no_json)).

Definition deleted : http string :=
  Answered (mkResponse true "{}" (Ok "{}")).

Definition reports (report : string) (argv : list string) : process :=
  mkProcess "" ("creating tables..." ++ String "010" report) None.

Definition crashes (argv : list string) : process :=
  mkProcess "" "" (Some (LibraryError "CalledProcessError"
                           "Command returned non-zero exit status 1."))
.

(** Everything goes well. *)
Definition fine : env :=
  mkEnv (fun _ => created) (fun _ => deleted) (reports full_report)
        (fun _ => None) (fun _ => None).

(** The remote side refuses to create the project. *)
Definition no_project : env :=
  mkEnv (fun _ => refused "quota exceeded") (fun _ => deleted)
        (reports full_report) (fun _ => None) (fun _ => None).

(** The benchmark runs, then the remote side refuses the deletion. *)
Definition no_teardown : env :=
  mkEnv (fun _ => created) (fun _ => refused "busy") (reports full_report)
        (fun _ => None) (fun _ => None).

(** Both programs exit with a nonzero status. *)
Definition failing_benchmark : env :=
  mkEnv (fun _ => created) (fun _ => deleted) crashes (fun _ => None)
        (fun _ => None).

Definition empty_world : world := mkWorld [] [].

Definition point : dict string :=
  [("shared_buffers", "128MB"); ("work_mem", "4MB")].

Definition allowed : list string := ["shared_buffers"].

Definition text_of (v : string) : string := v.

End Scenario.

(** The working directory after the [finally] block of [pgbench] ran on
    the files [fs]. *)
Definition swept (e : env) (project_id : string) (fs : dict string)
  : dict string :=
  files (snd (cleanup e project_id (mkWorld fs []))).

(** The events of the two calls of [unlink] that end the [finally] block
    of [pgbench]: the second file is not reached when the first unlink
    raises. *)
Definition unlink_events (e : env) : list event :=
  match unlink_error e "stderr.txt" with
  | Some _ => []
  | None =>
      Unlinked "stderr.txt" ::
      match unlink_error e "stdout.txt" with
      | Some _ => []
      | None => [Unlinked "stdout.txt"]
      end
  end.

(** ** Further notions, for the properties beyond the claims *)

Definition LF : string := String "010" "".
Definition CR : string := String "013" "".

(** The text does not go on with a digit. *)
Definition no_digit_ahead (s : string) : bool :=
  match s with
  | EmptyString => true
  | String c _ => negb (is_digit c)
  end.

(** The text holds no line boundary. *)
Fixpoint no_boundary (s : string) : bool :=
  match s with
  | EmptyString => true
  | String c s' => negb (is_line_boundary c) && no_boundary s'
  end.

(** How a last line may end in the output of a program. *)
Definition line_end (tail : string) : Prop :=
  tail = "" \/ tail = LF \/ tail = CR \/ tail = CR ++ LF.

(** The command line of the SQL client, as [pgbench] builds it. *)
Definition psql_argv (dsn set_command : string) : list string :=
  ["/opt/homebrew/bin/psql"; dsn; "-c"; set_command].

(** The statement that [pgbench] adds to [set_command] for one client
    setting. *)
Definition statement (kv : string * string) : string :=
  "ALTER DATABASE main SET " ++ fst kv ++ "=" ++ snd kv ++ ";".

(** A setting with its value rendered, as the loop of [pgbench] stores
    it. *)
Definition rendered {V} (str : V -> string) (kv : string * V)
  : string * string :=
  (fst kv, str (snd kv)).

(** The events that a computation leaves when it starts from the empty
    world. *)
Definition events_of {A} (m : M A) : list event :=
  trace (snd (m (mkWorld [] []))).

(** What the handler of [pgbench] prints for an outcome of the first
    block. *)
Definition diagnostic_of (r : result pyval) : list event :=
  match r with
  | Ok _ => []
  | Raise x => [Printed (str_exn x)]
  end.

(** More scenarios. *)

Module Cases.

(** The remote side creates a project whose only role is the one of the
    web console. *)
Definition web_only : project :=
  mkProject "proj-2" [mkRole "web_access" "postgres://web@host"].

Definition no_usable_role : env :=
  mkEnv (fun _ => Answered (mkResponse true "" (Ok (Well_shaped web_only))))
        (fun _ => Scenario.deleted) (Scenario.reports Scenario.full_report)
        (fun _ => None) (fun _ => None).

(** "stderr.txt" is a directory: it can be neither opened for writing
    nor unlinked. *)
Definition is_a_directory : exn :=
  LibraryError "IsADirectoryError"
    "[Errno 21] Is a directory: 'stderr.txt'".

Definition stderr_is_directory : env :=
  mkEnv (fun _ => Scenario.created) (fun _ => Scenario.deleted)
        (Scenario.reports Scenario.full_report)
        (fun path =>
           if String.eqb path "stderr.txt" then Some is_a_directory else None)
        (fun path =>
           if String.eqb path "stderr.txt" then Some is_a_directory else None).

(** The answer to the creation is a JSON document without "roles". *)
Definition no_roles_key : env :=
  mkEnv (fun _ => Answered (mkResponse true ""
                              (Ok (Ill_shaped (Missing_key "roles")))))
        (fun _ => Scenario.deleted) (Scenario.reports Scenario.full_report)
        (fun _ => None) (fun _ => None).

(** What the benchmark writes before its report. *)
Definition progress : string :=
  "dropping old tables..." ++ LF ++ "creating tables...".

(** A working directory with a file of the user and a file left by an
    earlier run. *)
Definition busy_world : world :=
  mkWorld [("notes.txt", "keep"); ("stderr.txt", "old")] [].

End Cases.

(** * Properties *)

(** ** Text *)

Lemma append_empty_r (s : string) : s ++ "" = s.
Proof. induction s as [|c s IH]; simpl; [reflexivity | now rewrite IH]. Qed.

Lemma append_assoc (a b c : string) : (a ++ b) ++ c = a ++ (b ++ c).
Proof. induction a as [|x a IH]; simpl; [reflexivity | now rewrite IH]. Qed.

Lemma append_is_empty (a b : string) : a ++ b = "" -> a = "" /\ b = "".
Proof. destruct a; simpl; [auto | discriminate]. Qed.

Lemma strip_prefix_sound (p s rest : string) :
  strip_prefix p s = Some rest -> s = p ++ rest.
Proof.
  revert s; induction p as [|a p IH]; intros s H; simpl in *.
  - now inversion H.
  - destruct s as [|b s]; [discriminate|].
    destruct (Ascii.eqb_spec a b) as [->|]; [|discriminate].
    now rewrite (IH _ H).
Qed.

Lemma strip_prefix_complete (p rest : string) :
  strip_prefix p (p ++ rest) = Some rest.
Proof.
  induction p as [|a p IH]; simpl; [reflexivity|].
  now rewrite Ascii.eqb_refl.
Qed.

Lemma all_digits_app (a b : string) :
  all_digits (a ++ b) = all_digits a && all_digits b.
Proof.
  induction a as [|c a IH]; simpl; [reflexivity|].
  now rewrite IH, andb_assoc.
Qed.

(** ** The search agrees with what a pattern matches *)

Section SearchFacts.
Context {A : Type}.

Lemma digits_star_sound (s acc : string) (k : string -> string -> option A)
    (a : A) :
  digits_star s acc k = Some a ->
  exists d rest, s = d ++ rest /\ all_digits d = true
                 /\ k (acc ++ d) rest = Some a.
Proof.
  revert acc; induction s as [|c s IH]; intros acc H; simpl in H.
  - exists "", ""; rewrite (append_empty_r acc); repeat split; assumption.
  - destruct (is_digit c) eqn:Hc.
    + destruct (digits_star s (acc ++ String c "") k) eqn:Hs.
      * inversion H; subst.
        destruct (IH _ Hs) as (d & rest & -> & Hd & Hk).
        exists (String c d), rest; simpl; rewrite Hc, Hd.
        rewrite append_assoc in Hk; auto.
      * exists "", (String c s); rewrite (append_empty_r acc);
          repeat split; assumption.
    + exists "", (String c s); rewrite (append_empty_r acc);
        repeat split; assumption.
Qed.

Lemma digits_star_complete (d rest acc : string)
    (k : string -> string -> option A) :
  all_digits d = true -> k (acc ++ d) rest <> None ->
  digits_star (d ++ rest) acc k <> None.
Proof.
  revert acc; induction d as [|c d IH]; intros acc Hd Hk; simpl in *.
  - rewrite append_empty_r in Hk.
    destruct rest as [|c r]; simpl; [assumption|].
    destruct (is_digit c); [|assumption].
    destruct (digits_star r (acc ++ String c "") k);
      [discriminate | assumption].
  - apply andb_prop in Hd as [Hc Hd]; rewrite Hc.
    specialize (IH (acc ++ String c "") Hd).
    rewrite append_assoc in IH; specialize (IH Hk).
    destruct (digits_star (d ++ rest) (acc ++ String c "") k);
      [discriminate | contradiction].
Qed.

Lemma digits_plus_sound (s : string) (k : string -> string -> option A)
    (a : A) :
  digits_plus s k = Some a ->
  exists d rest, s = d ++ rest /\ d <> "" /\ all_digits d = true
                 /\ k d rest = Some a.
Proof.
  destruct s as [|c s]; simpl; [discriminate|].
  destruct (is_digit c) eqn:Hc; [|discriminate].
  intros H; destruct (digits_star_sound _ _ _ _ H) as (d & rest & -> & Hd & Hk).
  exists (String c d), rest; simpl; rewrite Hc, Hd.
  repeat split; [discriminate | assumption].
Qed.

Lemma digits_plus_complete (d rest : string)
    (k : string -> string -> option A) :
  d <> "" -> all_digits d = true -> k d rest <> None ->
  digits_plus (d ++ rest) k <> None.
Proof.
  destruct d as [|c d]; [contradiction|]; intros _ Hd Hk; simpl in *.
  apply andb_prop in Hd as [Hc Hd]; rewrite Hc.
  now apply digits_star_complete.
Qed.

Lemma run_sound (r : pattern) :
  forall (s : string) (caps : captures)
         (k : string -> string -> captures -> option A) (a : A),
    run r s caps k = Some a ->
    exists w rest c, s = w ++ rest /\ matches r w caps c
                     /\ k w rest c = Some a.
Proof.
  induction r as [text| |r1 IH1 r2 IH2|r IH|i r IH]; intros s caps k a H;
    simpl in H.
  - destruct (strip_prefix text s) as [rest|] eqn:Hp; [|discriminate].
    exists text, rest, caps; split; [now apply strip_prefix_sound|].
    split; [constructor | assumption].
  - destruct (digits_plus_sound _ _ _ H) as (d & rest & -> & Hne & Hd & Hk).
    exists d, rest, caps; repeat split; [now constructor | assumption].
  - destruct (IH1 _ _ _ _ H) as (w1 & s1 & c1 & -> & M1 & H1).
    destruct (IH2 _ _ _ _ H1) as (w2 & s2 & c2 & -> & M2 & H2).
    exists (w1 ++ w2), s2, c2; split; [now rewrite append_assoc|].
    split; [econstructor; eassumption | assumption].
  - destruct (run r s caps k) as [a'|] eqn:Hr.
    + inversion H; subst a'.
      destruct (IH _ _ _ _ Hr) as (w & rest & c & -> & Mw & Hk).
      exists w, rest, c; repeat split; [now apply M_Opt_take | assumption].
    + exists "", s, caps; repeat split; [apply M_Opt_skip | assumption].
  - destruct (IH _ _ _ _ H) as (w & rest & c & -> & Mw & Hk).
    exists w, rest, (set_group i w c); repeat split;
      [now constructor | assumption].
Qed.

Lemma run_complete (r : pattern) (w : string) (caps c : captures) :
  matches r w caps c ->
  forall (rest : string) (k : string -> string -> captures -> option A),
    k w rest c <> None -> run r (w ++ rest) caps k <> None.
Proof.
  induction 1 as [text c|w c Hne Hd|r1 r2 w1 w2 c c1 c2 _ IH1 _ IH2|r c
                 |r w c c' _ IH|i r w c c' _ IH]; intros rest k Hk; simpl.
  - now rewrite strip_prefix_complete.
  - now apply digits_plus_complete.
  - rewrite append_assoc. apply IH1, IH2, Hk.
  - destruct (run r rest c k); [discriminate | assumption].
  - specialize (IH rest k Hk).
    destruct (run r (w ++ rest) c k); [discriminate | contradiction].
  - now apply IH.
Qed.

End SearchFacts.

(** [regex.match] answers exactly when a prefix of the line is matched,
    and its groups are those of one such prefix. *)
Lemma re_match_sound (n : nat) (r : pattern) (line : string) (c : captures) :
  re_match n r line = Some c ->
  exists w rest, line = w ++ rest /\ matches r w (repeat None n) c.
Proof.
  intros H; destruct (run_sound _ _ _ _ _ H) as (w & rest & c' & E & Mw & Hk).
  inversion Hk; subst; eauto.
Qed.

Lemma re_match_none (n : nat) (r : pattern) (line : string) :
  re_match n r line = None <-> ~ prefix_matches r n line.
Proof.
  split.
  - intros H (w & rest & c & -> & Mw).
    apply (run_complete _ _ _ _ Mw rest (fun _ _ caps => Some caps));
      [discriminate | exact H].
  - intros H; destruct (re_match n r line) as [c|] eqn:E; [|reflexivity].
    destruct (re_match_sound _ _ _ _ E) as (w & rest & -> & Mw).
    exfalso; apply H; now exists w, rest, c.
Qed.

(** ** Lines *)

Lemma splitlines_from_nonempty (s cur : string) (after_cr : bool) :
  cur <> "" -> splitlines_from s cur after_cr <> [].
Proof.
  revert cur after_cr; induction s as [|c s IH]; intros cur after_cr Hc; simpl.
  - destruct cur; [contradiction | discriminate].
  - destruct (after_cr && is_lf c); [now apply IH|].
    destruct (is_line_boundary c); [discriminate|].
    apply IH; destruct cur; discriminate.
Qed.

Lemma splitlines_nil (output : string) : splitlines output = [] <-> output = "".
Proof.
  split; [|now intros ->].
  destruct output as [|c s]; [reflexivity|].
  unfold splitlines; simpl.
  destruct (is_line_boundary c); [discriminate|].
  intros H; exfalso; revert H; apply splitlines_from_nonempty; discriminate.
Qed.

Lemma last_opt_none {A} (xs : list A) : last_opt xs = None <-> xs = [].
Proof.
  split; [|now intros ->].
  induction xs as [|x xs IH]; [reflexivity|]; simpl.
  destruct xs; [discriminate|]. intros H; discriminate (IH H).
Qed.

(** ** Groups *)

Lemma set_group_length (i : nat) (w : string) (c : captures) :
  List.length (set_group i w c) = List.length c.
Proof.
  revert c; induction i as [|i IH]; intros [|x c]; simpl; auto.
Qed.

Lemma matches_length (r : pattern) (w : string) (c c' : captures) :
  matches r w c c' -> List.length c' = List.length c.
Proof.
  induction 1; try reflexivity; try congruence.
  now rewrite set_group_length.
Qed.

Lemma re_match_length (n : nat) (r : pattern) (line : string) (c : captures) :
  re_match n r line = Some c -> List.length c = n.
Proof.
  intros H; destruct (re_match_sound _ _ _ _ H) as (w & rest & _ & Mw).
  apply matches_length in Mw; now rewrite repeat_length in Mw.
Qed.

Lemma not_none_length {A} (xs : list (option A)) :
  (List.length (not_none xs) <= List.length xs)%nat.
Proof. induction xs as [|[x|] xs IH]; simpl; lia. Qed.

Lemma not_none_short {A} (xs : list (option A)) :
  In None xs -> (List.length (not_none xs) < List.length xs)%nat.
Proof.
  induction xs as [|[x|] xs IH]; simpl; [contradiction | |].
  - intros [H|H]; [discriminate | specialize (IH H); lia].
  - intros _; pose proof (not_none_length xs); lia.
Qed.

(** ** Reading the pattern of the report *)

Lemma matches_Lit (text w : string) (c c' : captures) :
  matches (Lit text) w c c' -> w = text /\ c' = c.
Proof. inversion 1; auto. Qed.

Lemma matches_Seq (r1 r2 : pattern) (w : string) (c c' : captures) :
  matches (Seq r1 r2) w c c' ->
  exists w1 w2 c1, w = w1 ++ w2 /\ matches r1 w1 c c1 /\ matches r2 w2 c1 c'.
Proof.
  inversion 1 as [| |? ? w1 w2 ? c1 ? H1 H2| | |]; subst.
  exists w1, w2, c1; auto.
Qed.

Lemma matches_duration (i : nat) (w : string) (c c' : captures) :
  matches (duration i) w c c' -> decimal w /\ c' = set_group i w c.
Proof.
  unfold duration; simpl; intros H.
  inversion H as [| | | | |? ? ? ? c1 H1]; subst; clear H.
  apply matches_Seq in H1 as (w1 & w2 & c2 & -> & Hi & H2).
  apply matches_Seq in H2 as (w3 & w4 & c3 & -> & Hp & Hf).
  apply matches_Lit in Hp as [-> ->].
  inversion Hi; subst; inversion Hf; subst.
  split; [|reflexivity].
  exists w1, w4; auto.
Qed.

Lemma matches_separator (w : string) (c c' : captures) :
  matches (Opt (Lit ", ")) w c c' -> separator w /\ c' = c.
Proof.
  inversion 1 as [| | |  |? ? ? ? H1|]; subst.
  - split; [now left | reflexivity].
  - apply matches_Lit in H1 as [-> ->]; split; [now right | reflexivity].
Qed.

Lemma matches_phase (label : string) (i : nat) (w : string)
    (c c' : captures) :
  matches (phase label i) w c c' ->
  exists sep, separator sep /\
    ((w = sep /\ c' = c) \/
     (exists d, decimal d /\ w = label ++ d ++ " s" ++ sep
                /\ c' = set_group i d c)).
Proof.
  unfold phase; intros H.
  apply matches_Seq in H as (w1 & sep & c1 & -> & H1 & Hs).
  apply matches_separator in Hs as [Hs ->].
  exists sep; split; [assumption|].
  inversion H1 as [| | | |? ? ? ? H2|]; subst; clear H1.
  - left; auto.
  - right. simpl in H2.
    apply matches_Seq in H2 as (w2 & w3 & c2 & -> & Hl & H3).
    apply matches_Seq in H3 as (d & w4 & c3 & -> & Hd & Hu).
    apply matches_Lit in Hl as [-> ->]; apply matches_Lit in Hu as [-> ->].
    apply matches_duration in Hd as [Hd ->].
    exists d; repeat split; [assumption|].
    now rewrite !append_assoc.
Qed.

Lemma regex_all_groups (w t a b c g h : string) :
  matches regex w (repeat None 6)
          [Some t; Some a; Some b; Some c; Some g; Some h] ->
  exists s1 s2 s3 s4 s5,
    w = full_line t a b c g h s1 s2 s3 s4 s5
    /\ (decimal t /\ decimal a /\ decimal b /\ decimal c /\ decimal g
        /\ decimal h)
    /\ (separator s1 /\ separator s2 /\ separator s3 /\ separator s4
        /\ separator s5).
Proof.
  unfold regex; simpl seq; intros H.
  apply matches_Seq in H as (w0 & x0 & c0 & -> & H0 & H).
  apply matches_Lit in H0 as [-> ->].
  apply matches_Seq in H as (t' & x1 & c1 & -> & Ht & H).
  apply matches_duration in Ht as [Ht ->].
  apply matches_Seq in H as (w2 & x2 & c2 & -> & H2 & H).
  apply matches_Lit in H2 as [-> ->].
  apply matches_Seq in H as (w3 & x3 & c3 & -> & H3 & H).
  apply matches_Lit in H3 as [-> ->].
  apply matches_Seq in H as (p1 & x4 & c4 & -> & P1 & H).
  apply matches_Seq in H as (p2 & x5 & c5 & -> & P2 & H).
  apply matches_Seq in H as (p3 & x6 & c6 & -> & P3 & H).
  apply matches_Seq in H as (p4 & x7 & c7 & -> & P4 & H).
  apply matches_Seq in H as (p5 & x8 & c8 & -> & P5 & H).
  apply matches_Lit in H as [-> E].
  apply matches_phase in P1 as (s1 & S1 & [[-> ->]|(d1 & D1 & -> & ->)]);
  apply matches_phase in P2 as (s2 & S2 & [[-> ->]|(d2 & D2 & -> & ->)]);
  apply matches_phase in P3 as (s3 & S3 & [[-> ->]|(d3 & D3 & -> & ->)]);
  apply matches_phase in P4 as (s4 & S4 & [[-> ->]|(d4 & D4 & -> & ->)]);
  apply matches_phase in P5 as (s5 & S5 & [[-> ->]|(d5 & D5 & -> & ->)]);
  simpl in E; try discriminate E.
  injection E as -> -> -> -> -> ->.
  exists s1, s2, s3, s4, s5; split; [|auto 10].
  unfold full_line; now rewrite !append_assoc.
Qed.

(** ** The parser *)

Lemma parse_Ok_inv (output : string) (w w' : world) (d : dict Q) :
  parse_pgbench_initialize_output output w = (Ok d, w') ->
  w' = w /\
  exists line t a b c g h,
    last_opt (splitlines output) = Some line
    /\ re_match 6 regex line
       = Some [Some t; Some a; Some b; Some c; Some g; Some h]
    /\ d = timings_of t a b c g h.
Proof.
  unfold parse_pgbench_initialize_output, bind, index_last.
  destruct (last_opt (splitlines output)) as [line|]; [|discriminate].
  simpl. destruct (re_match 6 regex line) as [groups|] eqn:Hm; [|discriminate].
  pose proof (re_match_length _ _ _ _ Hm) as Hl.
  destruct groups as [|o1 [|o2 [|o3 [|o4 [|o5 [|o6 [|]]]]]]];
    try discriminate Hl.
  destruct o1 as [t|], o2 as [a|], o3 as [b|], o4 as [c|], o5 as [g|],
    o6 as [h|]; simpl; intros H; inversion H; subst.
  split; [reflexivity|].
  exists line, t, a, b, c, g, h; auto.
Qed.

Lemma parse_missing_group (output line : string) (groups : captures)
    (w : world) :
  last_opt (splitlines output) = Some line ->
  re_match 6 regex line = Some groups ->
  In None groups ->
  exists got, (got < 6)%nat /\
    parse_pgbench_initialize_output output w
    = (Raise (ValueError_unpack 6 got), w).
Proof.
  intros Hl Hm Hn.
  unfold parse_pgbench_initialize_output, bind, index_last.
  rewrite Hl; simpl; rewrite Hm.
  pose proof (not_none_short _ Hn) as Hs.
  rewrite (re_match_length _ _ _ _ Hm), <- (length_map float) in Hs.
  destruct (map float (not_none groups))
    as [|v1 [|v2 [|v3 [|v4 [|v5 [|v6 [|]]]]]]]; simpl in *;
    try lia; eexists; (split; [|reflexivity]); lia.
Qed.

Lemma parse_unmatched (output line : string) (w : world) :
  last_opt (splitlines output) = Some line ->
  re_match 6 regex line = None ->
  parse_pgbench_initialize_output output w
  = (Raise (RuntimeError "Something went wrong"),
     mkWorld (files w) (trace w ++ [Printed output])).
Proof.
  intros Hl Hm.
  unfold parse_pgbench_initialize_output, bind, index_last.
  now rewrite Hl; simpl; rewrite Hm.
Qed.

(** C2.  The report of the specification's own example, with three of
    the five sub-phases, is matched by the pattern with the groups of
    server-side generate and primary keys unset; the four remaining
    values cannot be unpacked into six names and the parser raises
    [ValueError] instead of returning a mapping with absent values. *)
Theorem partial_report_is_not_parsed :
  re_match 6 regex Scenario.partial_report
  = Some [Some "12.50"; Some "1.00"; Some "2.00"; None; Some "3.00"; None]
  /\ forall w : world,
       parse_pgbench_initialize_output Scenario.partial_report w
       = (Raise (ValueError_unpack 6 4), w).
Proof. split; [reflexivity | intros w; reflexivity]. Qed.

(** C9.  When the parser returns, it leaves the world as it was, the
    mapping has exactly the six keys, each bound to the value of a
    decimal numeral, and the last line starts with a report that holds
    the total and all five sub-phase timings; and when the pattern
    matches the last line with some group unset, the parser raises
    [ValueError] and returns nothing. *)
Theorem parse_needs_every_timing (output : string) (w : world) :
  (forall (d : dict Q) (w' : world),
      parse_pgbench_initialize_output output w = (Ok d, w') ->
      w' = w /\ keys d = six_keys /\
      exists t a b c g h s1 s2 s3 s4 s5 rest,
        last_opt (splitlines output)
        = Some (full_line t a b c g h s1 s2 s3 s4 s5 ++ rest)
        /\ (decimal t /\ decimal a /\ decimal b /\ decimal c /\ decimal g
            /\ decimal h)
        /\ (separator s1 /\ separator s2 /\ separator s3 /\ separator s4
            /\ separator s5)
        /\ d = timings_of t a b c g h)
  /\
  (forall (line : string) (groups : captures),
      last_opt (splitlines output) = Some line ->
      re_match 6 regex line = Some groups ->
      In None groups ->
      exists got, (got < 6)%nat /\
        parse_pgbench_initialize_output output w
        = (Raise (ValueError_unpack 6 got), w)).
Proof.
  split.
  - intros d w' H.
    apply parse_Ok_inv in H
      as (-> & line & t & a & b & c & g & h & Hl & Hm & ->).
    split; [reflexivity|]; split; [reflexivity|].
    apply re_match_sound in Hm as (pre & rest & -> & Mw).
    apply regex_all_groups in Mw
      as (s1 & s2 & s3 & s4 & s5 & -> & Hd & Hs).
    exists t, a, b, c, g, h, s1, s2, s3, s4, s5, rest; auto.
  - intros line groups; apply parse_missing_group.
Qed.

(** C4, as amended.  For an input with a last line, the parser prints the
    raw input and raises [RuntimeError "Something went wrong"] exactly
    when no prefix of the last line is matched by the pattern. *)
Theorem parse_rejects_unmatched (output line : string) (w : world) :
  last_opt (splitlines output) = Some line ->
  (~ prefix_matches regex 6 line ->
   parse_pgbench_initialize_output output w
   = (Raise (RuntimeError "Something went wrong"),
      mkWorld (files w) (trace w ++ [Printed output])))
  /\
  (prefix_matches regex 6 line ->
   forall msg : string,
     fst (parse_pgbench_initialize_output output w)
     <> Raise (RuntimeError msg)).
Proof.
  intros Hl; split.
  - intros Hn; apply re_match_none in Hn. now apply parse_unmatched with line.
  - intros Hp msg.
    destruct (re_match 6 regex line) as [groups|] eqn:Hm.
    + unfold parse_pgbench_initialize_output, bind, index_last.
      rewrite Hl; simpl; rewrite Hm.
      destruct (map float (not_none groups))
        as [|v1 [|v2 [|v3 [|v4 [|v5 [|v6 [|]]]]]]]; simpl; discriminate.
    + apply re_match_none in Hm; contradiction.
Qed.

(** C4, the text "something went wrong" is rejected in that way. *)
Lemma parse_rejects_unmatched_witness :
  last_opt (splitlines "something went wrong") = Some "something went wrong"
  /\ ~ prefix_matches regex 6 "something went wrong"
  /\ parse_pgbench_initialize_output "something went wrong"
       Scenario.empty_world
     = (Raise (RuntimeError "Something went wrong"),
        mkWorld [] [Printed "something went wrong"]).
Proof.
  assert (Hn : ~ prefix_matches regex 6 "something went wrong")
    by (apply re_match_none; reflexivity).
  split; [reflexivity|]. split; [exact Hn|].
  exact (proj1 (parse_rejects_unmatched "something went wrong"
                  "something went wrong" Scenario.empty_world eq_refl) Hn).
Defined.

(** C10.  On the empty text there is no last line: the parser raises
    [IndexError], and it does so on no other input. *)
Theorem parse_empty_input :
  (forall w : world,
      parse_pgbench_initialize_output "" w = (Raise IndexError, w))
  /\ (forall output : string,
         last_opt (splitlines output) = None <-> output = "")
  /\ (forall (output : string) (w : world),
         fst (parse_pgbench_initialize_output output w) = Raise IndexError
         <-> output = "").
Proof.
  split; [reflexivity|].
  assert (Hl : forall output,
             last_opt (splitlines output) = None <-> output = "").
  { intros output; rewrite last_opt_none; apply splitlines_nil. }
  split; [exact Hl|].
  intros output w; split; [|now intros ->].
  destruct (last_opt (splitlines output)) as [line|] eqn:E;
    [|intros _; now apply Hl].
  unfold parse_pgbench_initialize_output, bind, index_last; rewrite E; simpl.
  destruct (re_match 6 regex line) as [groups|]; [|discriminate].
  destruct (map float (not_none groups))
    as [|v1 [|v2 [|v3 [|v4 [|v5 [|v6 [|]]]]]]]; simpl; discriminate.
Qed.

(** ** Dictionaries *)

Lemma dict_get_set_same {V} (d : dict V) (key : string) (v : V) :
  dict_get (dict_set d key v) key = Some v.
Proof.
  induction d as [|[k w] d IH]; simpl.
  - now rewrite String.eqb_refl.
  - destruct (String.eqb k key) eqn:E; simpl; now rewrite E.
Qed.

Lemma dict_get_remove_same {V} (d : dict V) (key : string) :
  dict_get (dict_remove d key) key = None.
Proof.
  induction d as [|[k w] d IH]; simpl; [reflexivity|].
  destruct (String.eqb k key) eqn:E; simpl; [assumption | now rewrite E].
Qed.

Lemma dict_get_remove_other {V} (d : dict V) (key other : string) :
  dict_get d key = None -> dict_get (dict_remove d other) key = None.
Proof.
  induction d as [|[k w] d IH]; simpl; [reflexivity|].
  destruct (String.eqb k key) eqn:E; [discriminate|]; intros H.
  destruct (String.eqb k other); simpl; [auto | rewrite E; auto].
Qed.

(** ** The project API *)

Lemma create_project_at (e : env) (settings : dict string) (w : world) :
  create_project e settings w
  = (outcome (create_project e settings),
     mkWorld (files w)
       (trace w ++ Create_project_called settings ::
          match outcome (create_project e settings) with
          | Ok (project_id, dsn) => [Create_project_returned project_id dsn]
          | Raise _ => []
          end)).
Proof.
  unfold outcome, create_project, bind, emit, requests_post, response_json,
    index_first, raise, ret; simpl.
  destruct (post_projects e settings) as [x|r]; simpl; [reflexivity|].
  destruct (ok r); simpl; [|reflexivity].
  destruct (json r) as [[p|s]|x]; simpl; [|reflexivity|reflexivity].
  destruct (map _ (filter _ (roles p))) as [|first rest]; simpl;
    [reflexivity|].
  now rewrite <- app_assoc.
Qed.

Lemma delete_project_at (e : env) (project_id : string) (w : world) :
  delete_project e project_id w
  = (outcome (delete_project e project_id),
     mkWorld (files w)
       (trace w ++ Delete_project_called project_id ::
          match outcome (delete_project e project_id) with
          | Ok _ => [Delete_project_returned project_id]
          | Raise _ => []
          end)).
Proof.
  unfold outcome, delete_project, bind, emit, requests_post, response_json,
    raise, ret; simpl.
  destruct (post_delete e project_id) as [x|r]; simpl; [reflexivity|].
  destruct (ok r); simpl; [|reflexivity].
  destruct (json r) as [j|]; simpl; [|reflexivity].
  now rewrite <- app_assoc.
Qed.

Lemma first_of_filter {A B} (f : A -> B) (p : A -> bool) (xs : list A)
    (y : B) (ys : list B) :
  map f (filter p xs) = y :: ys ->
  exists before x after,
    xs = (before ++ x :: after)%list
    /\ (forall x', In x' before -> p x' = false)
    /\ p x = true /\ y = f x.
Proof.
  induction xs as [|x xs IH]; simpl; [discriminate|].
  destruct (p x) eqn:Hp; simpl.
  - intros H; inversion H; subst.
    exists [], x, xs; repeat split; auto. intros x' [].
  - intros H; destruct (IH H) as (before & x0 & after & -> & Hb & Hx & ->).
    exists (x :: before), x0, after; repeat split; auto.
    intros x' [<-|Hin]; auto.
Qed.

(** C8.  When [create_project] returns, the remote side answered with
    success and a project; the identifier returned is the project's, and
    the connection descriptor is the DSN, followed by "/main", of the
    first role of the answer that is not named "web_access": every role
    before it in the answer is named "web_access" and it is not. *)
Theorem create_project_selects_first_role
    (e : env) (settings : dict string) (w w' : world)
    (project_id descriptor : string) :
  create_project e settings w = (Ok (project_id, descriptor), w') ->
  exists r p before chosen after,
    post_projects e settings = Answered r
    /\ ok r = true /\ json r = Ok (Well_shaped p)
    /\ project_id = id p
    /\ roles p = (before ++ chosen :: after)%list
    /\ (forall r', In r' before -> name r' = "web_access")
    /\ name chosen <> "web_access"
    /\ descriptor = dsn chosen ++ "/main".
Proof.
  unfold create_project, bind, emit, requests_post, response_json,
    index_first, raise, ret; simpl.
  destruct (post_projects e settings) as [x|r]; simpl; [discriminate|].
  destruct (ok r) eqn:Hok; simpl; [|discriminate].
  destruct (json r) as [[p|s]|x] eqn:Hj; simpl; [|discriminate|discriminate].
  destruct (map _ (filter _ (roles p))) as [|first rest] eqn:Hf; simpl;
    [discriminate|].
  intros H; inversion H; subst; clear H.
  apply first_of_filter in Hf as (before & chosen & after & Hr & Hb & Hc & ->).
  exists r, p, before, chosen, after; repeat split; auto.
  - intros r' Hin; specialize (Hb r' Hin).
    apply negb_false_iff in Hb; now apply String.eqb_eq.
  - apply negb_true_iff in Hc; now apply String.eqb_neq.
Qed.

Lemma create_project_selects_first_role_witness :
  create_project Scenario.fine [("shared_buffers", "128MB")]
    Scenario.empty_world
  = (Ok ("proj-1", "postgres://alice@host/main"),
     mkWorld []
       [ Create_project_called [("shared_buffers", "128MB")];
         Create_project_returned "proj-1" "postgres://alice@host/main" ])
  /\ exists r p before chosen after,
       post_projects Scenario.fine [("shared_buffers", "128MB")] = Answered r
       /\ ok r = true /\ json r = Ok (Well_shaped p)
       /\ "proj-1" = id p
       /\ roles p = (before ++ chosen :: after)%list
       /\ (forall r', In r' before -> name r' = "web_access")
       /\ name chosen <> "web_access"
       /\ "postgres://alice@host/main" = dsn chosen ++ "/main".
Proof.
  split; [reflexivity|].
  apply (create_project_selects_first_role Scenario.fine
           [("shared_buffers", "128MB")] Scenario.empty_world
           (mkWorld []
              [ Create_project_called [("shared_buffers", "128MB")];
                Create_project_returned "proj-1"
                  "postgres://alice@host/main" ])).
  reflexivity.
Defined.

(** ** Traces *)

Lemma count_app (p : event -> bool) (a b : list event) :
  count p (a ++ b) = (count p a + count p b)%nat.
Proof. unfold count; now rewrite filter_app, length_app. Qed.

Lemma count_reports (p : event -> bool) (evs : list event) :
  (forall ev, is_report ev = true -> p ev = false) ->
  forallb is_report evs = true -> count p evs = 0%nat.
Proof.
  intros Hp; unfold count; induction evs as [|ev evs IH]; simpl;
    [reflexivity|].
  intros H; apply andb_prop in H as [Hev Hevs].
  rewrite (Hp _ Hev); auto.
Qed.

Lemma since_app (w : world) (fs : dict string) (evs : list event) :
  since w (mkWorld fs (trace w ++ evs)) = evs.
Proof.
  unfold since; simpl.
  rewrite skipn_app, skipn_all, Nat.sub_diag; reflexivity.
Qed.

Lemma parse_at (output : string) (w : world) :
  exists evs,
    parse_pgbench_initialize_output output w
    = (outcome (parse_pgbench_initialize_output output),
       mkWorld (files w) (trace w ++ evs))
    /\ forallb is_report evs = true.
Proof.
  unfold outcome, parse_pgbench_initialize_output, bind, index_last, print,
    emit, raise, ret.
  destruct (last_opt (splitlines output)) as [line|]; simpl;
    [|exists []; rewrite app_nil_r; destruct w; auto].
  destruct (re_match 6 regex line) as [groups|]; simpl;
    [|exists [Printed output]; auto].
  exists []; rewrite app_nil_r.
  destruct (map float (not_none groups))
    as [|v1 [|v2 [|v3 [|v4 [|v5 [|v6 [|]]]]]]]; destruct w; auto.
Qed.

(** ** The objective function *)

Lemma cleanup_cases (e : env) (project_id : string) :
  (outcome (cleanup e project_id), events_of (cleanup e project_id))
  = match outcome (delete_project e project_id) with
    | Raise x => (Raise x, [Delete_project_called project_id])
    | Ok _ =>
        match unlink_error e "stderr.txt" with
        | Some x =>
            (Raise x,
             [Delete_project_called project_id;
              Delete_project_returned project_id])
        | None =>
            match unlink_error e "stdout.txt" with
            | Some x =>
                (Raise x,
                 [Delete_project_called project_id;
                  Delete_project_returned project_id;
                  Unlinked "stderr.txt"])
            | None =>
                (Ok tt,
                 [Delete_project_called project_id;
                  Delete_project_returned project_id;
                  Unlinked "stderr.txt"; Unlinked "stdout.txt"])
            end
        end
    end.
Proof.
  unfold outcome at 1, events_of, cleanup, unlink, bind, emit, raise, ret.
  rewrite delete_project_at.
  destruct (outcome (delete_project e project_id)) as [a|x]; [|reflexivity].
  destruct (unlink_error e "stderr.txt"); [reflexivity|].
  destruct (unlink_error e "stdout.txt"); reflexivity.
Qed.

Lemma swept_cases (e : env) (project_id : string) (fs : dict string) :
  swept e project_id fs
  = match outcome (delete_project e project_id) with
    | Raise _ => fs
    | Ok _ =>
        match unlink_error e "stderr.txt" with
        | Some _ => fs
        | None =>
            match unlink_error e "stdout.txt" with
            | Some _ => dict_remove fs "stderr.txt"
            | None => dict_remove (dict_remove fs "stderr.txt") "stdout.txt"
            end
        end
    end.
Proof.
  unfold swept, cleanup, unlink, bind, emit, raise, ret.
  rewrite delete_project_at.
  destruct (outcome (delete_project e project_id)) as [a|x]; [|reflexivity].
  destruct (unlink_error e "stderr.txt"); [reflexivity|].
  destruct (unlink_error e "stdout.txt"); reflexivity.
Qed.

Lemma cleanup_at (e : env) (project_id : string) (w : world) :
  cleanup e project_id w
  = (outcome (cleanup e project_id),
     mkWorld (swept e project_id (files w))
       (trace w ++ events_of (cleanup e project_id))).
Proof.
  pose proof (cleanup_cases e project_id) as C.
  apply (f_equal fst) in C as Co; apply (f_equal snd) in C as Ce.
  cbn [fst snd] in Co, Ce; rewrite Co, Ce, swept_cases.
  unfold cleanup, unlink, bind, emit, raise, ret.
  rewrite delete_project_at.
  destruct (outcome (delete_project e project_id)) as [a|x]; [|reflexivity].
  destruct (unlink_error e "stderr.txt"); [reflexivity|].
  destruct (unlink_error e "stdout.txt");
    cbn [files trace]; rewrite <- ?app_assoc; reflexivity.
Qed.

(** The [finally] block calls [delete_project] once, on the project it
    is given, and unlinks each file at most once. *)
Lemma cleanup_counts (e : env) (project_id : string) :
  let evs := events_of (cleanup e project_id) in
  count is_destroy_call evs = 1%nat
  /\ count (is_destroy_of project_id) evs = 1%nat
  /\ count is_provisioned evs = 0%nat
  /\ (count (is_unlink_of "stderr.txt") evs <= 1)%nat
  /\ (count (is_unlink_of "stdout.txt") evs <= 1)%nat.
Proof.
  pose proof (cleanup_cases e project_id) as C.
  apply (f_equal snd) in C; cbn [snd] in C.
  cbn zeta; rewrite C.
  destruct (outcome (delete_project e project_id)) as [a|x];
    [destruct (unlink_error e "stderr.txt");
     [|destruct (unlink_error e "stdout.txt")]|];
    cbn [snd]; unfold count; simpl; rewrite String.eqb_refl; simpl;
    repeat split; lia.
Qed.

Section AdapterFacts.

Variable value : Type.
Variable str : value -> string.
Variable ALLOWED_SERVER_SETTINGS : list string.

Local Abbreviation split_options :=
  (split_options value str ALLOWED_SERVER_SETTINGS).
Local Abbreviation pgbench := (pgbench value str ALLOWED_SERVER_SETTINGS).
Local Abbreviation campaign := (campaign value str ALLOWED_SERVER_SETTINGS).

Ltac close_here :=
  cbn [fst snd files trace app];
  eexists _, _; split; [rewrite <- ?app_assoc; reflexivity|];
  rewrite ?forallb_app; simpl; auto.

Lemma measure_at (e : env) (dsn : string) (client_settings : dict string)
    (w : world) :
  exists evs fs,
    measure e dsn client_settings w
    = (outcome (measure e dsn client_settings), mkWorld fs (trace w ++ evs))
    /\ forallb is_report evs = true.
Proof.
  unfold outcome, measure, run_checked, path_open_w, run_checked_into,
    read_text, write_file, bind, emit, raise, ret.
  cbn [fst snd files trace app].
  destruct (raised (subprocess_run e _)) as [x|]; [close_here|].
  destruct (open_w e "stderr.txt") as [x|]; [close_here|].
  destruct (open_w e "stdout.txt") as [x|]; [close_here|].
  cbn [fst snd files trace app].
  destruct (raised (subprocess_run e _)) as [x|]; [close_here|].
  cbn [fst snd files trace app].
  rewrite !dict_get_set_same.
  match goal with
  | |- context [parse_pgbench_initialize_output ?o ?w1] =>
      destruct (parse_at o w1) as (evs1 & -> & R1)
  end.
  match goal with
  | |- context [parse_pgbench_initialize_output ?o ?w0] =>
      destruct (parse_at o w0) as (evs0 & -> & R0)
  end.
  destruct (outcome (parse_pgbench_initialize_output _)) as [d|x];
    [|close_here; rewrite R1; reflexivity].
  unfold subscript, raise, ret.
  destruct (dict_get d "total"); cbn [fst snd files trace app];
    close_here; rewrite R1; reflexivity.
Qed.

Lemma pgbench_at (e : env) (options : dict value) (w : world) :
  let server := fst (split_options options) in
  let client := snd (split_options options) in
  match outcome (create_project e server) with
  | Raise x =>
      pgbench e options w
      = (Raise x,
         mkWorld (files w) (trace w ++ [Create_project_called server]))
  | Ok (project_id, dsn) =>
      exists evs fs,
        forallb is_report evs = true /\
        (forall x, outcome (measure e dsn client) = Raise x ->
                   In (Printed (str_exn x)) evs) /\
        pgbench e options w
        = (match outcome (cleanup e project_id) with
           | Ok _ => Ok (score_of (outcome (measure e dsn client)))
           | Raise x => Raise x
           end,
           mkWorld (swept e project_id fs)
             (trace w
              ++ [Create_project_called server;
                  Create_project_returned project_id dsn]
              ++ evs
              ++ events_of (cleanup e project_id)))
  end.
Proof.
  unfold pgbench.
  destruct (split_options options) as [server client]; cbn [fst snd].
  destruct (outcome (create_project e server)) as [[project_id dsn]|x] eqn:Hc;
    unfold bind at 1; rewrite create_project_at, Hc; [|reflexivity].
  unfold try_except_finally.
  match goal with
  | |- context [measure e dsn client ?w1] =>
      destruct (measure_at e dsn client w1) as (evs & fs & -> & R)
  end.
  cbn [files trace].
  destruct (outcome (measure e dsn client)) as [y|x]; cbn [score_of].
  - exists evs, fs; split; [assumption|]. split; [discriminate|].
    rewrite cleanup_at; cbn [files trace].
    destruct (outcome (cleanup e project_id));
      rewrite <- ?app_assoc; reflexivity.
  - exists (evs ++ [Printed (str_exn x)])%list, fs; split.
    { rewrite forallb_app, R; reflexivity. }
    split.
    { intros x0 H; inversion H; subst; apply in_or_app; right; now left. }
    unfold penalize, print, emit, bind, ret; cbn [files trace].
    rewrite cleanup_at; cbn [files trace].
    destruct (outcome (cleanup e project_id));
      rewrite <- ?app_assoc; reflexivity.
Qed.

Lemma measure_Ok_inv (e : env) (dsn : string) (client_settings : dict string)
    (y : pyval) :
  outcome (measure e dsn client_settings) = Ok y ->
  exists line t others,
    last_opt (splitlines (written_err (subprocess_run e (pgbench_argv dsn))))
    = Some line
    /\ re_match 6 regex line = Some (Some t :: others)
    /\ y = PyFloat (float t).
Proof.
  unfold outcome, measure, run_checked, path_open_w, run_checked_into,
    read_text, write_file, bind, emit, raise, ret, pgbench_argv.
  cbn [fst snd files trace app].
  destruct (raised (subprocess_run e _)) as [x|]; [discriminate|].
  destruct (open_w e "stderr.txt") as [x|]; [discriminate|].
  destruct (open_w e "stdout.txt") as [x|]; [discriminate|].
  cbn [fst snd files trace app].
  destruct (raised (subprocess_run e _)) as [x|]; [discriminate|].
  cbn [fst snd files trace app].
  rewrite !dict_get_set_same.
  match goal with
  | |- context [parse_pgbench_initialize_output ?o ?w0] =>
      destruct (parse_pgbench_initialize_output o w0) as [[d|x] w1] eqn:E
  end; [|discriminate].
  apply parse_Ok_inv in E as (-> & line & t & a & b & c & g & h & Hl & Hm & ->).
  cbn. intros H; inversion H; subst.
  exists line, t, [Some a; Some b; Some c; Some g; Some h]; auto.
Qed.


Lemma trial_balance (e : env) (options : dict value) (w : world) :
  exists evs fs,
    snd (pgbench e options w) = mkWorld fs (trace w ++ evs)
    /\ count is_destroy_call evs = count is_provisioned evs.
Proof.
  pose proof (pgbench_at e options w) as P; cbn zeta in P.
  destruct (outcome (create_project e _)) as [[project_id dsn]|x].
  - destruct P as (evs & fs & R & _ & P); rewrite P.
    destruct (cleanup_counts e project_id) as (C1 & _ & C2 & _).
    eexists _, _; (split; [reflexivity|]); rewrite !count_app.
    rewrite !(count_reports _ evs) by (assumption || now intros []).
    rewrite C1, C2; reflexivity.
  - rewrite P; eexists _, _; split; reflexivity.
Qed.

Lemma campaign_balance (trials : list (env * dict value)) (w : world) :
  exists evs fs,
    snd (campaign trials w) = mkWorld fs (trace w ++ evs)
    /\ count is_destroy_call evs = count is_provisioned evs.
Proof.
  revert w; induction trials as [|[e options] trials IH]; intros w; simpl.
  - exists [], (files w); rewrite app_nil_r; destruct w; auto.
  - unfold bind at 1.
    destruct (trial_balance e options w) as (evs1 & fs1 & E1 & B1).
    destruct (pgbench e options w) as [[y|x] w1]; simpl in E1; subst w1.
    + unfold bind at 1.
      destruct (IH (mkWorld fs1 (trace w ++ evs1))) as (evs2 & fs2 & E2 & B2).
      destruct (campaign trials _) as [[ys|x] w2]; simpl in E2; subst w2;
        simpl; exists (evs1 ++ evs2)%list, fs2; rewrite app_assoc;
        (split; [reflexivity|]); rewrite !count_app; lia.
    + simpl; now exists evs1, fs1.
Qed.

(** C3.  In an invocation whose provisioning succeeds, [delete_project]
    is called exactly once, on the project that was provisioned, whatever
    the later steps do; and over any campaign the calls to
    [delete_project] are as many as the normal returns of
    [create_project]. *)
Theorem destroy_once_per_provision :
  (forall (e : env) (options : dict value) (w : world) project_id dsn,
      outcome (create_project e (fst (split_options options)))
      = Ok (project_id, dsn) ->
      let evs := since w (snd (pgbench e options w)) in
      count is_destroy_call evs = 1%nat
      /\ count (is_destroy_of project_id) evs = 1%nat
      /\ count is_provisioned evs = 1%nat)
  /\
  (forall (trials : list (env * dict value)) (w : world),
      let evs := since w (snd (campaign trials w)) in
      count is_destroy_call evs = count is_provisioned evs).
Proof.
  split.
  - intros e options w project_id dsn Hc evs; subst evs.
    pose proof (pgbench_at e options w) as P; cbn zeta in P; rewrite Hc in P.
    destruct P as (evs & fs & R & _ & P); rewrite P.
    destruct (cleanup_counts e project_id) as (C1 & C2 & C3 & _).
    cbn [snd]; rewrite since_app, !count_app.
    rewrite !(count_reports _ evs) by (assumption || now intros []).
    rewrite C1, C2, C3; auto.
  - intros trials w evs; subst evs.
    destruct (campaign_balance trials w) as (evs & fs & -> & B).
    now rewrite since_app.
Qed.

(** C5, as amended.  A failure of [delete_project] is not caught: when
    provisioning succeeded and the deletion raises, that exception leaves
    [pgbench] in place of the score or the penalty, and it ends the
    campaign at this trial. *)
Theorem teardown_failure_propagates
    (e : env) (options : dict value) (w : world) (project_id dsn : string)
    (x : exn) :
  outcome (create_project e (fst (split_options options)))
  = Ok (project_id, dsn) ->
  outcome (delete_project e project_id) = Raise x ->
  fst (pgbench e options w) = Raise x
  /\ forall later, fst (campaign ((e, options) :: later) w) = Raise x.
Proof.
  intros Hc Hd.
  pose proof (pgbench_at e options w) as P; cbn zeta in P; rewrite Hc in P.
  destruct P as (evs & fs & R & _ & P).
  pose proof (cleanup_cases e project_id) as C.
  rewrite Hd in C; apply (f_equal fst) in C; cbn [fst] in C.
  rewrite C in P.
  split; [now rewrite P|].
  intros later; simpl; unfold bind at 1; now rewrite P.
Qed.

(** C6, as amended.  On every exit path on which [delete_project] and
    the two calls of [unlink] returned (a measured score or the penalty
    of a caught failure) each of the two files is unlinked exactly once
    before [pgbench] completes, and neither exists afterwards; on no
    path is a file unlinked more than once; when provisioning fails
    nothing is unlinked and the files are as they were. *)
Theorem files_unlinked_once (e : env) (options : dict value) (w : world) :
  let server := fst (split_options options) in
  let w' := snd (pgbench e options w) in
  (forall project_id dsn a,
      outcome (create_project e server) = Ok (project_id, dsn) ->
      outcome (delete_project e project_id) = Ok a ->
      unlink_error e "stderr.txt" = None ->
      unlink_error e "stdout.txt" = None ->
      count (is_unlink_of "stderr.txt") (since w w') = 1%nat
      /\ count (is_unlink_of "stdout.txt") (since w w') = 1%nat
      /\ dict_get (files w') "stderr.txt" = None
      /\ dict_get (files w') "stdout.txt" = None)
  /\
  ((count (is_unlink_of "stderr.txt") (since w w') <= 1)%nat
   /\ (count (is_unlink_of "stdout.txt") (since w w') <= 1)%nat)
  /\
  (forall x,
      outcome (create_project e server) = Raise x ->
      count (is_unlink_of "stderr.txt") (since w w') = 0%nat
      /\ count (is_unlink_of "stdout.txt") (since w w') = 0%nat
      /\ files w' = files w).
Proof.
  intros server w'; subst w'.
  pose proof (pgbench_at e options w) as P; cbn zeta in P; fold server in P.
  split; [|split].
  - intros project_id dsn a Hc Hd H1 H2; rewrite Hc in P.
    destruct P as (evs & fs & R & _ & P); rewrite P.
    pose proof (cleanup_cases e project_id) as C.
    rewrite Hd, H1, H2 in C; apply (f_equal snd) in C; cbn [snd] in C.
    rewrite C, swept_cases, Hd, H1, H2.
    cbn [snd files]; rewrite since_app, !count_app.
    rewrite !(count_reports _ evs) by (assumption || now intros []).
    repeat split; try reflexivity.
    + apply dict_get_remove_other, dict_get_remove_same.
    + apply dict_get_remove_same.
  - destruct (outcome (create_project e server)) as [[project_id dsn]|x].
    + destruct P as (evs & fs & R & _ & P); rewrite P.
      destruct (cleanup_counts e project_id) as (_ & _ & _ & C1 & C2).
      cbn [snd]; rewrite since_app, !count_app.
      rewrite !(count_reports _ evs) by (assumption || now intros []).
      cbn zeta in C1, C2; unfold count at 1 3; simpl; lia.
    + rewrite P; cbn [snd]; rewrite since_app; unfold count; simpl; lia.
  - intros x Hc; rewrite Hc in P; rewrite P.
    cbn [snd files]; rewrite since_app; auto.
Qed.

Lemma has_key_dict_set {V} (d : dict V) (key : string) (v : V)
    (name : string) :
  has_key (dict_set d key v) name = has_key d name || String.eqb name key.
Proof.
  unfold has_key, keys; induction d as [|[k u] d IH]; simpl.
  - now rewrite orb_false_r.
  - destruct (String.eqb_spec k key) as [->|Hk]; simpl.
    + destruct (String.eqb name key); simpl; rewrite ?orb_false_r;
        reflexivity.
    + now rewrite IH, orb_assoc.
Qed.

Lemma is_server_setting_In (name : string) :
  is_server_setting ALLOWED_SERVER_SETTINGS name = true
  <-> In name ALLOWED_SERVER_SETTINGS.
Proof.
  unfold is_server_setting; rewrite existsb_exists; split.
  - intros (x & Hx & E); apply String.eqb_eq in E; now subst.
  - intros H; exists name; split; [assumption | apply String.eqb_refl].
Qed.

Lemma classify_keys (options : dict value) :
  forall (server client : dict string) (key : string),
    let after :=
      fold_left (classify value str ALLOWED_SERVER_SETTINGS) options
                (server, client) in
    has_key (fst after) key
    = has_key server key
      || (has_key options key
          && is_server_setting ALLOWED_SERVER_SETTINGS key)
    /\ has_key (snd after) key
       = has_key client key
         || (has_key options key
             && negb (is_server_setting ALLOWED_SERVER_SETTINGS key)).
Proof.
  induction options as [|[k v] options IH]; intros server client key.
  - simpl; now rewrite !orb_false_r.
  - cbn [fold_left classify].
    assert (Hh : has_key ((k, v) :: options) key
                 = String.eqb key k || has_key options key) by reflexivity.
    rewrite Hh; clear Hh.
    destruct (is_server_setting ALLOWED_SERVER_SETTINGS k) eqn:Hk.
    + destruct (IH (dict_set server k (str v)) client key) as [Hs Hc].
      cbn zeta in Hs, Hc |- *; rewrite Hs, Hc, has_key_dict_set.
      destruct (String.eqb_spec key k) as [E|Hn];
        [rewrite E, Hk; clear E|];
        destruct (has_key server k), (has_key server key),
          (has_key client k), (has_key client key), (has_key options k),
          (has_key options key),
          (is_server_setting ALLOWED_SERVER_SETTINGS key); auto.
    + destruct (IH server (dict_set client k (str v)) key) as [Hs Hc].
      cbn zeta in Hs, Hc |- *; rewrite Hs, Hc, has_key_dict_set.
      destruct (String.eqb_spec key k) as [E|Hn];
        [rewrite E, Hk; clear E|];
        destruct (has_key server k), (has_key server key),
          (has_key client k), (has_key client key), (has_key options k),
          (has_key options key),
          (is_server_setting ALLOWED_SERVER_SETTINGS key); auto.
Qed.

(** C7.  Every option name of the trial point is a key of exactly one of
    the two mappings, the server-side one when the name belongs to
    [ALLOWED_SERVER_SETTINGS] and the client-side one otherwise; the two
    mappings hold no other key. *)
Theorem options_are_partitioned (options : dict value) (name : string) :
  let server_settings := fst (split_options options) in
  let client_settings := snd (split_options options) in
  (In name (keys options) ->
   (In name ALLOWED_SERVER_SETTINGS
    /\ has_key server_settings name = true
    /\ has_key client_settings name = false)
   \/
   (~ In name ALLOWED_SERVER_SETTINGS
    /\ has_key server_settings name = false
    /\ has_key client_settings name = true))
  /\
  (~ In name (keys options) ->
   has_key server_settings name = false
   /\ has_key client_settings name = false).
Proof.
  intros server_settings client_settings.
  destruct (classify_keys options [] [] name) as [Hs Hc].
  subst server_settings client_settings; unfold split_options.
  cbn zeta in Hs, Hc; unfold dict in *.
  assert (Hin : has_key options name = true <-> In name (keys options)).
  { unfold has_key; rewrite existsb_exists; split.
    - intros (x & Hx & E); apply String.eqb_eq in E; now subst.
    - intros H; exists name; split; [assumption | apply String.eqb_refl]. }
  rewrite Hs, Hc; cbn [has_key keys map existsb orb]; split.
  - intros H; apply Hin in H; rewrite H; cbn [andb].
    destruct (is_server_setting ALLOWED_SERVER_SETTINGS name) eqn:E.
    + left; split; [now apply is_server_setting_In | auto].
    + right; split; [|auto].
      intros Hn; apply is_server_setting_In in Hn; congruence.
  - intros H; destruct (has_key options name) eqn:E; [|auto].
    exfalso; apply H, Hin; reflexivity.
Qed.

End AdapterFacts.

(** ** The scenarios *)

Module Run.
Import Scenario.

Example splitlines_examples :
  splitlines ("a" ++ String "010" "b") = ["a"; "b"]
  /\ splitlines ("a" ++ String "013" (String "010" "b")) = ["a"; "b"]
  /\ splitlines ("a" ++ String "010" (String "010" "")) = ["a"; ""]
  /\ splitlines (String "010" "") = [""]
  /\ splitlines "" = [].
Proof. repeat split. Qed.

(** The search backtracks into [\d+]: the group gives up its last digit
    only when the rest of the pattern needs it. *)
Example search_examples :
  re_match 1 (Seq (Group 0 Digits) (Lit "7")) "1277"
  = Some [Some "127"]
  /\ re_match 1 (Seq (Opt (Group 0 Digits)) (Lit "x")) "x" = Some [None]
  /\ re_match 6 regex full_report
     = Some [Some "12.50"; Some "1.00"; Some "2.00"; Some "5.50";
             Some "3.00"; Some "0.01"]
  /\ re_match 6 regex "done in 3.10 s ()."
     = Some [Some "3.10"; None; None; None; None; None]
  /\ re_match 6 regex "done in 3 s ()." = None.
Proof. repeat split. Qed.

Example float_examples :
  float "12.50" = 25 # 2 /\ float "1.00" = 1 # 1 /\ float "0.01" = 1 # 100.
Proof. repeat split. Qed.

(** The grammar of the specification accepts the full report and the
    report with three sub-phases, and not a line of free text. *)
Example grammar_accepts_reports :
  Grammar.conforms full_report = true
  /\ Grammar.conforms partial_report = true
  /\ Grammar.conforms "done in 3.10 s ()." = true
  /\ Grammar.conforms "something went wrong" = false.
Proof. repeat split; vm_compute; reflexivity. Qed.



Lemma destroy_once_per_provision_witness :
  outcome (create_project failing_benchmark [("shared_buffers", "128MB")])
  = Ok ("proj-1", "postgres://alice@host/main")
  /\ (let evs :=
        since empty_world
          (snd (pgbench string text_of allowed failing_benchmark point
                  empty_world)) in
      count is_destroy_call evs = 1%nat
      /\ count (is_destroy_of "proj-1") evs = 1%nat
      /\ count is_provisioned evs = 1%nat).
Proof.
  split; [reflexivity|].
  exact (proj1 (destroy_once_per_provision string text_of allowed)
           failing_benchmark point empty_world
           "proj-1" "postgres://alice@host/main" eq_refl).
Defined.

(** C4, refuted as stated: two last lines that the grammar of the
    specification does not admit, one with text after the closing ")."
    and one without the separators, are accepted by the parser. *)
Lemma nonconforming_lines_are_accepted :
  Grammar.conforms trailing_report = false
  /\ Grammar.conforms unseparated_report = false
  /\ parse_pgbench_initialize_output trailing_report empty_world
     = (Ok (timings_of "12.50" "1.00" "2.00" "5.50" "3.00" "0.01"),
        empty_world)
  /\ parse_pgbench_initialize_output unseparated_report empty_world
     = (Ok (timings_of "12.50" "1.00" "2.00" "5.50" "3.00" "0.01"),
        empty_world).
Proof. repeat split; vm_compute; reflexivity. Qed.

(** C5, refuted as stated: the benchmark was measured, the deletion of
    the project is refused, and [pgbench] raises instead of returning
    the measured score. *)
Lemma pgbench_raises_when_teardown_fails :
  outcome (measure no_teardown "postgres://alice@host/main"
             [("work_mem", "4MB")])
  = Ok (PyFloat (25 # 2))
  /\ fst (pgbench string text_of allowed no_teardown point empty_world)
     = Raise (RuntimeError
                "Can't delete project with project_id='proj-1', busy").
Proof. split; reflexivity. Qed.

Lemma teardown_failure_propagates_witness :
  outcome (create_project no_teardown [("shared_buffers", "128MB")])
  = Ok ("proj-1", "postgres://alice@host/main")
  /\ outcome (delete_project no_teardown "proj-1")
     = Raise (RuntimeError
                "Can't delete project with project_id='proj-1', busy")
  /\ fst (pgbench string text_of allowed no_teardown point empty_world)
     = Raise (RuntimeError
                "Can't delete project with project_id='proj-1', busy").
Proof.
  split; [reflexivity|]. split; [reflexivity|].
  exact (proj1 (teardown_failure_propagates string text_of allowed
                  no_teardown point empty_world
                  "proj-1" "postgres://alice@host/main" _ eq_refl eq_refl)).
Defined.

(** C6, refuted as stated: when the deletion of the project is refused,
    neither file is unlinked and both are still there when [pgbench]
    completes. *)
Lemma files_left_when_teardown_fails :
  let w' := snd (pgbench string text_of allowed no_teardown point
                   empty_world) in
  count (is_unlink_of "stderr.txt") (since empty_world w') = 0%nat
  /\ count (is_unlink_of "stdout.txt") (since empty_world w') = 0%nat
  /\ has_key (files w') "stderr.txt" = true
  /\ has_key (files w') "stdout.txt" = true.
Proof. repeat split; reflexivity. Qed.

Lemma files_unlinked_once_witness :
  outcome (create_project fine [("shared_buffers", "128MB")])
  = Ok ("proj-1", "postgres://alice@host/main")
  /\ outcome (delete_project fine "proj-1") = Ok "{}"
  /\ unlink_error fine "stderr.txt" = None
  /\ unlink_error fine "stdout.txt" = None
  /\ (let w' := snd (pgbench string text_of allowed fine point empty_world) in
      count (is_unlink_of "stderr.txt") (since empty_world w') = 1%nat
      /\ count (is_unlink_of "stdout.txt") (since empty_world w') = 1%nat
      /\ dict_get (files w') "stderr.txt" = None
      /\ dict_get (files w') "stdout.txt" = None).
Proof.
  split; [reflexivity|]. split; [reflexivity|].
  split; [reflexivity|]. split; [reflexivity|].
  exact (proj1 (files_unlinked_once string text_of allowed fine point
                  empty_world)
           "proj-1" "postgres://alice@host/main" "{}"
           eq_refl eq_refl eq_refl eq_refl).
Defined.

Lemma options_are_partitioned_witness :
  In "work_mem" (keys point)
  /\ ((In "work_mem" allowed
       /\ has_key (fst (split_options string text_of allowed point))
                  "work_mem" = true
       /\ has_key (snd (split_options string text_of allowed point))
                  "work_mem" = false)
      \/
      (~ In "work_mem" allowed
       /\ has_key (fst (split_options string text_of allowed point))
                  "work_mem" = false
       /\ has_key (snd (split_options string text_of allowed point))
                  "work_mem" = true)).
Proof.
  assert (H : In "work_mem" (keys point)) by (simpl; auto).
  split; [exact H|].
  exact (proj1 (options_are_partitioned string text_of allowed point
                  "work_mem") H).
Defined.

Lemma parse_needs_every_timing_witness :
  (parse_pgbench_initialize_output full_report empty_world
   = (Ok (timings_of "12.50" "1.00" "2.00" "5.50" "3.00" "0.01"),
      empty_world)
   /\ keys (timings_of "12.50" "1.00" "2.00" "5.50" "3.00" "0.01")
      = six_keys)
  /\
  (last_opt (splitlines partial_report) = Some partial_report
   /\ re_match 6 regex partial_report
      = Some [Some "12.50"; Some "1.00"; Some "2.00"; None; Some "3.00"; None]
   /\ In None [Some "12.50"; Some "1.00"; Some "2.00"; None; Some "3.00"; None]
   /\ exists got, (got < 6)%nat /\
        parse_pgbench_initialize_output partial_report empty_world
        = (Raise (ValueError_unpack 6 got), empty_world)).
Proof.
  split.
  - split; [reflexivity|].
    exact (proj1 (proj2 (proj1 (parse_needs_every_timing full_report
                                  empty_world)
                           _ _ eq_refl))).
  - assert (Hn : In None [Some "12.50"; Some "1.00"; Some "2.00"; None;
                          Some "3.00"; None])
      by (simpl; auto).
    split; [reflexivity|]. split; [reflexivity|]. split; [exact Hn|].
    exact (proj2 (parse_needs_every_timing partial_report empty_world)
             partial_report _ eq_refl eq_refl Hn).
Defined.

End Run.

(** * Further properties *)

(** ** The search along the preferred path *)

Section Forward.
Context {A : Type}.

Lemma digits_star_greedy (d rest acc : string)
    (k : string -> string -> option A) (a : A) :
  all_digits d = true -> no_digit_ahead rest = true ->
  k (acc ++ d) rest = Some a ->
  digits_star (d ++ rest) acc k = Some a.
Proof.
  revert acc; induction d as [|c d IH]; intros acc Hd Hr Hk; simpl in *.
  - rewrite (append_empty_r acc) in Hk.
    destruct rest as [|c r]; simpl in *; [assumption|].
    apply negb_true_iff in Hr; now rewrite Hr.
  - apply andb_prop in Hd as [Hc Hd]; rewrite Hc.
    rewrite (IH (acc ++ String c "") Hd Hr); [reflexivity|].
    now rewrite append_assoc.
Qed.

Lemma digits_plus_forward (d rest : string)
    (k : string -> string -> option A) (a : A) :
  d <> "" -> all_digits d = true -> no_digit_ahead rest = true ->
  k d rest = Some a ->
  digits_plus (d ++ rest) k = Some a.
Proof.
  intros Hne Hd Hr Hk; destruct d as [|c d]; [contradiction|]; simpl in *.
  apply andb_prop in Hd as [Hc Hd]; rewrite Hc.
  now apply digits_star_greedy.
Qed.

Lemma run_Lit_forward (text rest : string) (caps : captures)
    (k : string -> string -> captures -> option A) (a : A) :
  k text rest caps = Some a ->
  run (Lit text) (text ++ rest) caps k = Some a.
Proof. intros Hk; simpl; now rewrite strip_prefix_complete. Qed.

Lemma run_duration_forward (i : nat) (d rest : string) (caps : captures)
    (k : string -> string -> captures -> option A) (a : A) :
  decimal d -> no_digit_ahead rest = true ->
  k d rest (set_group i d caps) = Some a ->
  run (duration i) (d ++ rest) caps k = Some a.
Proof.
  intros (n & f & -> & Hn & Hf & Dn & Df) Hr Hk.
  unfold duration; cbn [seq run].
  rewrite !append_assoc.
  apply digits_plus_forward; try assumption; [reflexivity|].
  rewrite (strip_prefix_complete "." (f ++ rest)).
  apply digits_plus_forward; assumption.
Qed.

(** A clause that is present, with what stands after it. *)
Lemma run_phase_forward (label : string) (i : nat) (d sep rest : string)
    (caps : captures) (k : string -> string -> captures -> option A) (a : A) :
  decimal d -> separator sep ->
  strip_prefix ", " rest = None ->
  (forall w, k w rest (set_group i d caps) = Some a) ->
  run (phase label i) (label ++ d ++ " s" ++ sep ++ rest) caps k = Some a.
Proof.
  intros Hd Hs Hr Hk.
  unfold phase; cbn [seq].
  change (run ?r ?s ?c ?k0)
    with (run (Opt (Seq (Lit label) (Seq (duration i) (Lit " s")))) s c
            (fun w1 s1 c1 =>
               run (Opt (Lit ", ")) s1 c1
                 (fun w2 s2 c2 => k (w1 ++ w2) s2 c2))).
  cbn [run].
  rewrite strip_prefix_complete.
  rewrite run_duration_forward with (a := a);
    [reflexivity | assumption | reflexivity|].
  rewrite (strip_prefix_complete " s" (sep ++ rest)).
  destruct Hs as [->| ->].
  - cbn [append]; rewrite Hr; apply Hk.
  - rewrite (strip_prefix_complete ", " rest), Hk; reflexivity.
Qed.

End Forward.

(** ** More on the parser *)

Lemma re_match_full_line (t a b c g h s1 s2 s3 s4 s5 rest : string) :
  decimal t /\ decimal a /\ decimal b /\ decimal c /\ decimal g /\ decimal h ->
  separator s1 /\ separator s2 /\ separator s3 /\ separator s4
  /\ separator s5 ->
  re_match 6 regex (full_line t a b c g h s1 s2 s3 s4 s5 ++ rest)
  = Some [Some t; Some a; Some b; Some c; Some g; Some h].
Proof.
  intros (Dt & Da & Db & Dc & Dg & Dh) (S1 & S2 & S3 & S4 & S5).
  unfold re_match, regex, full_line; cbn [seq repeat].
  rewrite !append_assoc.
  cbn [run]; rewrite strip_prefix_complete.
  apply run_duration_forward; [assumption | reflexivity|].
  change (" s (" ++ ?x) with (" s " ++ "(" ++ x).
  rewrite (strip_prefix_complete " s "), (strip_prefix_complete "(").
  apply run_phase_forward; [assumption | assumption | reflexivity|]; intros w1.
  apply run_phase_forward; [assumption | assumption | reflexivity|]; intros w2.
  apply run_phase_forward; [assumption | assumption | reflexivity|]; intros w3.
  apply run_phase_forward; [assumption | assumption | reflexivity|]; intros w4.
  apply run_phase_forward; [assumption | assumption | reflexivity|]; intros w5.
  now rewrite strip_prefix_complete.
Qed.

(** X1.  A last line that starts with a report holding the total and the
    five clauses, each followed or not by ", ", is parsed: the parser
    returns the six values and leaves the world as it was. *)
Theorem parse_accepts_full_report
    (output t a b c g h s1 s2 s3 s4 s5 rest : string) (w : world) :
  last_opt (splitlines output)
  = Some (full_line t a b c g h s1 s2 s3 s4 s5 ++ rest) ->
  decimal t /\ decimal a /\ decimal b /\ decimal c /\ decimal g /\ decimal h ->
  separator s1 /\ separator s2 /\ separator s3 /\ separator s4
  /\ separator s5 ->
  parse_pgbench_initialize_output output w
  = (Ok (timings_of t a b c g h), w).
Proof.
  intros Hl Hd Hs.
  unfold parse_pgbench_initialize_output, bind, index_last.
  rewrite Hl; cbn [ret].
  now rewrite re_match_full_line.
Qed.

Lemma last_opt_cons {A} (x : A) (xs : list A) (y : A) :
  last_opt xs = Some y -> last_opt (x :: xs) = Some y.
Proof. destruct xs; [discriminate | auto]. Qed.

Lemma splitlines_from_line (line tail cur : string) :
  no_boundary line = true -> line_end tail -> cur ++ line <> "" ->
  splitlines_from (line ++ tail) cur false = [cur ++ line].
Proof.
  revert cur; induction line as [|c line IH]; intros cur Hb Ht Hne.
  - rewrite append_empty_r in *; simpl.
    destruct cur as [|x cur]; [contradiction|].
    destruct Ht as [->|[->|[->| ->]]]; reflexivity.
  - simpl in Hb; apply andb_prop in Hb as [Hc Hb].
    apply negb_true_iff in Hc; simpl; rewrite Hc.
    rewrite (IH (cur ++ String c "") Hb Ht).
    + now rewrite append_assoc.
    + rewrite append_assoc; simpl.
      intros E; apply append_is_empty in E as [_ E]; discriminate.
Qed.

Lemma splitlines_from_last (before line tail : string) :
  line <> "" -> no_boundary line = true -> line_end tail ->
  forall (cur : string) (after_cr : bool),
    (after_cr = true -> cur = "") ->
    last_opt (splitlines_from (before ++ LF ++ line ++ tail) cur after_cr)
    = Some line.
Proof.
  intros Hne Hb Ht.
  assert (Hline : splitlines_from (line ++ tail) "" false = [line]).
  { now apply (splitlines_from_line line tail ""). }
  induction before as [|c before IH]; intros cur after_cr Hcur.
  - cbn [append LF splitlines_from].
    change (is_lf "010") with true; change (is_line_boundary "010") with true.
    change (is_cr "010") with false.
    destruct after_cr; [rewrite (Hcur eq_refl)|]; cbn [andb];
      rewrite Hline; reflexivity.
  - cbn [append splitlines_from].
    destruct (after_cr && is_lf c); [now apply IH|].
    destruct (is_line_boundary c).
    + apply last_opt_cons, IH; reflexivity.
    + apply IH; discriminate.
Qed.

(** X2.  Only the last line counts, and its line ending does not: for a
    line that is not empty and holds no line boundary, the parser gives on
    an output that ends with this line, whatever comes on the lines
    before and whether or not a line ending follows, the outcome it gives
    on the line alone. *)
Theorem parse_reads_last_line (before line tail : string) (w : world) :
  line <> "" -> no_boundary line = true -> line_end tail ->
  last_opt (splitlines (before ++ LF ++ line ++ tail)) = Some line
  /\ last_opt (splitlines (line ++ tail)) = Some line
  /\ fst (parse_pgbench_initialize_output (before ++ LF ++ line ++ tail) w)
     = fst (parse_pgbench_initialize_output line w)
  /\ fst (parse_pgbench_initialize_output (line ++ tail) w)
     = fst (parse_pgbench_initialize_output line w).
Proof.
  intros Hne Hb Ht.
  assert (H1 : last_opt (splitlines (before ++ LF ++ line ++ tail))
               = Some line).
  { apply splitlines_from_last; auto; discriminate. }
  assert (H2 : forall tail', line_end tail' ->
                 last_opt (splitlines (line ++ tail')) = Some line).
  { intros tail' Ht'; unfold splitlines.
    now rewrite (splitlines_from_line line tail' ""). }
  assert (H3 : last_opt (splitlines line) = Some line).
  { rewrite <- (append_empty_r line) at 1; apply H2; now left. }
  assert (Hp : forall output,
             last_opt (splitlines output) = Some line ->
             fst (parse_pgbench_initialize_output output w)
             = fst (parse_pgbench_initialize_output line w)).
  { intros output Ho.
    unfold parse_pgbench_initialize_output, bind, index_last.
    rewrite Ho, H3; cbn [ret].
    destruct (re_match 6 regex line) as [groups|]; [|reflexivity].
    destruct (map float (not_none groups))
      as [|v1 [|v2 [|v3 [|v4 [|v5 [|v6 [|]]]]]]]; reflexivity. }
  repeat split; [exact H1 | now apply H2 | now apply Hp | now apply Hp, H2].
Qed.

Lemma regex_groups (w : string) (c : captures) :
  matches regex w (repeat None 6) c ->
  exists t o1 o2 o3 o4 o5,
    c = [Some t; o1; o2; o3; o4; o5]
    /\ decimal t
    /\ (forall d, In (Some d) [o1; o2; o3; o4; o5] -> decimal d).
Proof.
  unfold regex; simpl seq; intros H.
  apply matches_Seq in H as (w0 & x0 & c0 & -> & H0 & H).
  apply matches_Lit in H0 as [-> ->].
  apply matches_Seq in H as (t & x1 & c1 & -> & Ht & H).
  apply matches_duration in Ht as [Ht ->].
  apply matches_Seq in H as (w2 & x2 & c2 & -> & H2 & H).
  apply matches_Lit in H2 as [-> ->].
  apply matches_Seq in H as (w3 & x3 & c3 & -> & H3 & H).
  apply matches_Lit in H3 as [-> ->].
  apply matches_Seq in H as (p1 & x4 & c4 & -> & P1 & H).
  apply matches_Seq in H as (p2 & x5 & c5 & -> & P2 & H).
  apply matches_Seq in H as (p3 & x6 & c6 & -> & P3 & H).
  apply matches_Seq in H as (p4 & x7 & c7 & -> & P4 & H).
  apply matches_Seq in H as (p5 & x8 & c8 & -> & P5 & H).
  apply matches_Lit in H as [-> ->].
  apply matches_phase in P1 as (s1 & S1 & [[-> ->]|(d1 & D1 & -> & ->)]);
  apply matches_phase in P2 as (s2 & S2 & [[-> ->]|(d2 & D2 & -> & ->)]);
  apply matches_phase in P3 as (s3 & S3 & [[-> ->]|(d3 & D3 & -> & ->)]);
  apply matches_phase in P4 as (s4 & S4 & [[-> ->]|(d4 & D4 & -> & ->)]);
  apply matches_phase in P5 as (s5 & S5 & [[-> ->]|(d5 & D5 & -> & ->)]);
  simpl; do 6 eexists; (split; [reflexivity|]); (split; [assumption|]);
  intros d Hin; simpl in Hin;
  repeat (destruct Hin as [Hin|Hin];
          [try discriminate Hin; inversion Hin; subst; assumption|]);
  contradiction.
Qed.

(** X3.  The parser prints the raw output exactly when it raises
    [RuntimeError]; when it returns, and when it raises [IndexError] or
    [ValueError], it prints nothing, and in no case does it touch a
    file. *)
Theorem parse_prints_only_on_mismatch (output : string) (w : world) :
  snd (parse_pgbench_initialize_output output w)
  = match fst (parse_pgbench_initialize_output output w) with
    | Raise (RuntimeError _) =>
        mkWorld (files w) (trace w ++ [Printed output])
    | _ => w
    end.
Proof.
  unfold parse_pgbench_initialize_output, bind, index_last, print, emit,
    raise, ret.
  destruct (last_opt (splitlines output)) as [line|]; [|reflexivity].
  destruct (re_match 6 regex line) as [groups|]; [|reflexivity].
  destruct (map float (not_none groups))
    as [|v1 [|v2 [|v3 [|v4 [|v5 [|v6 [|]]]]]]]; reflexivity.
Qed.

(** X5.  When the unpacking fails, six values were expected and between
    one and five were there: the total is a group of every match, and
    with all six groups set the parser returns. *)
Theorem unpack_error_bounds (output : string) (w w' : world)
    (expected got : nat) :
  parse_pgbench_initialize_output output w
  = (Raise (ValueError_unpack expected got), w') ->
  expected = 6%nat /\ (1 <= got <= 5)%nat /\ w' = w.
Proof.
  unfold parse_pgbench_initialize_output, bind, index_last, print, emit,
    raise, ret.
  destruct (last_opt (splitlines output)) as [line|]; [|discriminate].
  destruct (re_match 6 regex line) as [groups|] eqn:Hm; [|discriminate].
  apply re_match_sound in Hm as (pre & rest & _ & Mw).
  apply regex_groups in Mw as (t & o1 & o2 & o3 & o4 & o5 & -> & _).
  destruct o1, o2, o3, o4, o5; cbn; intros H; inversion H; subst;
    repeat split; lia.
Qed.

Lemma digit_is_no_point (c : ascii) :
  is_digit c = true -> Ascii.eqb c "." = false.
Proof.
  intros H; destruct (Ascii.eqb_spec c ".") as [->|]; [discriminate H | auto].
Qed.

Lemma split_at_point_decimal (n f : string) :
  all_digits n = true -> split_at_point (n ++ "." ++ f) = (n, f).
Proof.
  induction n as [|c n IH]; intros H; [reflexivity|].
  simpl in H; apply andb_prop in H as [Hc Hn].
  change (split_at_point (String c n ++ "." ++ f))
    with (if Ascii.eqb c "." then ("", n ++ "." ++ f)
          else let (i, f') := split_at_point (n ++ "." ++ f) in
               (String c i, f')).
  now rewrite (digit_is_no_point c Hc), (IH Hn).
Qed.

Lemma digits_value_nonneg (s : string) (acc : Z) :
  all_digits s = true -> (0 <= acc)%Z -> (0 <= digits_value s acc)%Z.
Proof.
  revert acc; induction s as [|c s IH]; intros acc H Ha; [assumption|].
  simpl in H; apply andb_prop in H as [Hc Hs].
  cbn [digits_value]; apply IH; [assumption|].
  unfold is_digit in Hc; apply andb_prop in Hc as [Hc _].
  apply Nat.leb_le in Hc; unfold digit_value; lia.
Qed.

Lemma float_nonneg (d : string) : decimal d -> 0 <= float d.
Proof.
  intros (n & f & -> & _ & _ & Dn & Df).
  unfold float; rewrite (split_at_point_decimal n f Dn), Qred_correct.
  unfold Qle; simpl.
  assert (0 <= digits_value (n ++ f) 0)%Z; [|lia].
  apply digits_value_nonneg; [|lia].
  now rewrite all_digits_app, Dn, Df.
Qed.

(** X4.  The pattern admits no sign, so every value of a mapping that the
    parser returns is zero or more. *)
Theorem parsed_timings_are_nonnegative (output : string) (w w' : world)
    (d : dict Q) :
  parse_pgbench_initialize_output output w = (Ok d, w') ->
  forall (key : string) (v : Q), In (key, v) d -> 0 <= v.
Proof.
  intros H key v Hin.
  apply parse_Ok_inv in H
    as (_ & line & t & a & b & c & g & h & _ & Hm & ->).
  apply re_match_sound in Hm as (pre & rest & _ & Mw).
  apply regex_all_groups in Mw
    as (s1 & s2 & s3 & s4 & s5 & _ & (Dt & Da & Db & Dc & Dg & Dh) & _).
  simpl in Hin.
  repeat (destruct Hin as [Hin|Hin];
          [inversion Hin; subst; now apply float_nonneg|]).
  contradiction.
Qed.

(** ** More on the project API *)

Lemma usable_roles_nil (rs : list role) :
  map (fun r => dsn r ++ "/main")
      (filter (fun r => negb (String.eqb (name r) "web_access")) rs) = []
  <-> (forall r, In r rs -> name r = "web_access").
Proof.
  induction rs as [|r rs IH]; simpl; [split; [intros _ r [] | reflexivity]|].
  destruct (String.eqb_spec (name r) "web_access") as [E|E]; simpl.
  - rewrite IH; split.
    + intros H r' [<-|Hin]; auto.
    + intros H r' Hin; apply H; now right.
  - split; [discriminate|]. intros H; exfalso; apply E, H; now left.
Qed.

(** X6.  [create_project] returns exactly when the request is answered
    with success and a JSON project that has a role not named
    "web_access". *)
Theorem create_project_succeeds_iff (e : env) (settings : dict string) :
  (exists project_id descriptor,
      outcome (create_project e settings) = Ok (project_id, descriptor))
  <->
  (exists r p usable,
      post_projects e settings = Answered r
      /\ ok r = true /\ json r = Ok (Well_shaped p)
      /\ In usable (roles p) /\ name usable <> "web_access").
Proof.
  unfold outcome, create_project, bind, emit, requests_post, response_json,
    index_first, raise, ret; cbn [fst snd files trace].
  destruct (post_projects e settings) as [x|r]; cbn [fst].
  { split; [intros (? & ? & H); discriminate H
           | intros (? & ? & ? & H & _); discriminate H]. }
  destruct (ok r) eqn:Hok; cbn [negb fst].
  2:{ split; [intros (? & ? & H); discriminate H|].
      intros (r' & ? & ? & H & Hok' & _); inversion H; subst; congruence. }
  destruct (json r) as [[p|s]|x] eqn:Hj; cbn [fst].
  2,3:(split; [intros (? & ? & H); discriminate H|];
       intros (r' & ? & ? & H & _ & Hj' & _); inversion H; subst; congruence).
  destruct (map _ (filter _ (roles p))) as [|first rest] eqn:Hf; cbn [fst].
  - split; [intros (? & ? & H); discriminate H|].
    intros (r' & p' & usable & H & _ & Hj' & Hin & Hn).
    inversion H; subst r'; rewrite Hj in Hj'; inversion Hj'; subst p'.
    exfalso; apply Hn.
    exact (proj1 (usable_roles_nil (roles p)) Hf usable Hin).
  - split; [|intros _; eauto].
    intros _.
    destruct (first_of_filter _ _ _ _ _ Hf)
      as (before & x & after & Hr & _ & Hx & _).
    exists r, p, x; repeat split; auto.
    + rewrite Hr; apply in_or_app; right; now left.
    + apply negb_true_iff in Hx; now apply String.eqb_neq.
Qed.

(** X7.  [create_project] fails in exactly five ways: with the exception
    of the transport; with a [RuntimeError] that carries the [repr] of
    the settings and the body of an answer that is not a success; with
    the exception of the decoder when the body of a successful answer is
    not JSON; with the [KeyError] or [TypeError] of a decoded document
    that has not the shape of a project; and with [IndexError] when
    every role of the project is named "web_access", an empty list of
    roles included. *)
Theorem create_project_failures (e : env) (settings : dict string) (x : exn) :
  outcome (create_project e settings) = Raise x
  <->
  (post_projects e settings = Failed x
   \/ (exists r,
          post_projects e settings = Answered r /\ ok r = false
          /\ x = RuntimeError ("Can't create project with settings="
                                 ++ repr_dict settings ++ ", " ++ text r))
   \/ (exists r,
          post_projects e settings = Answered r /\ ok r = true
          /\ json r = Raise x)
   \/ (exists r s,
          post_projects e settings = Answered r /\ ok r = true
          /\ json r = Ok (Ill_shaped s)
          /\ x = exn_of_shape s)
   \/ (exists r p,
          post_projects e settings = Answered r /\ ok r = true
          /\ json r = Ok (Well_shaped p)
          /\ (forall role, In role (roles p) -> name role = "web_access")
          /\ x = IndexError)).
Proof.
  unfold outcome, create_project, bind, emit, requests_post, response_json,
    index_first, raise, ret; cbn [fst snd files trace].
  split.
  - destruct (post_projects e settings) as [x0|r]; cbn [fst].
    { intros H; inversion H; now left. }
    destruct (ok r) eqn:Hok; cbn [negb fst].
    2:{ intros H; inversion H; right; left; exists r; auto. }
    destruct (json r) as [[p|s]|x0] eqn:Hj; cbn [fst].
    + destruct (map _ (filter _ (roles p))) as [|first rest] eqn:Hf;
        cbn [fst]; [|discriminate].
      intros H; inversion H; do 4 right; exists r, p.
      repeat split; auto. now apply usable_roles_nil.
    + intros H; inversion H; do 3 right; left; exists r, s; auto.
    + intros H; inversion H; subst; right; right; left; exists r; auto.
  - intros [H|[(r & H & Hok & ->)|[(r & H & Hok & Hj)
           |[(r & s & H & Hok & Hj & ->)|(r & p & H & Hok & Hj & Hr & ->)]]]];
      rewrite H; cbn [fst]; try reflexivity;
      rewrite Hok; cbn [negb fst]; try reflexivity;
      rewrite Hj; cbn [fst]; try reflexivity.
    now rewrite (proj2 (usable_roles_nil (roles p)) Hr).
Qed.

(** X8.  [delete_project] returns the decoded body exactly when the
    request is answered with success and a JSON body; it fails exactly
    with the exception of the transport, with a [RuntimeError] that
    carries the [repr] of the identifier and the body of an answer that
    is not a success, or with the exception of the decoder on a
    successful answer whose body is not JSON. *)
Theorem delete_project_outcomes (e : env) (project_id : string) :
  (forall a,
      outcome (delete_project e project_id) = Ok a
      <-> exists r, post_delete e project_id = Answered r
                    /\ ok r = true /\ json r = Ok a)
  /\
  (forall x,
      outcome (delete_project e project_id) = Raise x
      <->
      (post_delete e project_id = Failed x
       \/ (exists r,
              post_delete e project_id = Answered r /\ ok r = false
              /\ x = RuntimeError ("Can't delete project with project_id="
                                     ++ repr_str project_id ++ ", "
                                     ++ text r))
       \/ (exists r,
              post_delete e project_id = Answered r /\ ok r = true
              /\ json r = Raise x))).
Proof.
  unfold outcome, delete_project, bind, emit, requests_post, response_json,
    raise, ret; cbn [fst snd files trace].
  destruct (post_delete e project_id) as [x0|r]; cbn [fst].
  { split.
    - intros a; split; [discriminate | intros (? & H & _); discriminate H].
    - intros x; split.
      + intros H; inversion H; now left.
      + intros [H|[(? & H & _)|(? & H & _)]]; try discriminate H.
        now inversion H. }
  destruct (ok r) eqn:Hok; cbn [negb fst].
  2:{ split.
      - intros a; split; [discriminate|].
        intros (r' & H & Hok' & _); inversion H; subst; congruence.
      - intros x; split.
        + intros H; inversion H; right; left; exists r; auto.
        + intros [H|[(r' & H & _ & ->)|(r' & H & Hok' & _)]];
            try discriminate H; inversion H; subst;
            [reflexivity | congruence]. }
  destruct (json r) as [j|x0] eqn:Hj; cbn [fst].
  - split.
    + intros a; split.
      * intros H; inversion H; subst; exists r; auto.
      * intros (r' & H & _ & Hj'); inversion H; subst; congruence.
    + intros x; split; [discriminate|].
      intros [H|[(r' & H & Hok' & _)|(r' & H & _ & Hj')]];
        try discriminate H; inversion H; subst; congruence.
  - split.
    + intros a; split; [discriminate|].
      intros (r' & H & _ & Hj'); inversion H; subst; congruence.
    + intros x; split.
      * intros H; inversion H; subst; right; right; exists r; auto.
      * intros [H|[(r' & H & Hok' & _)|(r' & H & _ & Hj')]];
          try discriminate H; inversion H; subst; congruence.
Qed.

(** ** More on a trial *)

Lemma dict_get_set_other {V} (d : dict V) (key other : string) (v : V) :
  key <> other -> dict_get (dict_set d other v) key = dict_get d key.
Proof.
  intros Hne; induction d as [|[k u] d IH]; simpl.
  - destruct (String.eqb_spec other key); [congruence | reflexivity].
  - destruct (String.eqb_spec k other) as [->|Hk]; simpl.
    + destruct (String.eqb_spec other key); [congruence | reflexivity].
    + now rewrite IH.
Qed.

Lemma dict_get_remove_diff {V} (d : dict V) (key other : string) :
  key <> other -> dict_get (dict_remove d other) key = dict_get d key.
Proof.
  intros Hne; induction d as [|[k u] d IH]; simpl; [reflexivity|].
  destruct (String.eqb_spec k other) as [->|Hk]; simpl.
  - destruct (String.eqb_spec other key); [congruence | assumption].
  - now rewrite IH.
Qed.

Lemma parse_uniform (output : string) (w : world) :
  parse_pgbench_initialize_output output w
  = (outcome (parse_pgbench_initialize_output output),
     mkWorld (files w)
       (trace w ++ events_of (parse_pgbench_initialize_output output))).
Proof.
  unfold outcome, events_of, parse_pgbench_initialize_output, bind,
    index_last, print, emit, raise, ret.
  destruct (last_opt (splitlines output)) as [line|]; cbn [fst snd trace];
    [|rewrite app_nil_r; now destruct w].
  destruct (re_match 6 regex line) as [groups|]; cbn [fst snd trace files];
    [|reflexivity].
  destruct (map float (not_none groups))
    as [|v1 [|v2 [|v3 [|v4 [|v5 [|v6 [|]]]]]]]; cbn [fst snd trace];
    rewrite app_nil_r; now destruct w.
Qed.

Lemma measure_uniform (e : env) (dsn : string) (client_settings : dict string)
    (w : world) :
  fst (measure e dsn client_settings w)
  = outcome (measure e dsn client_settings)
  /\ trace (snd (measure e dsn client_settings w))
     = (trace w ++ events_of (measure e dsn client_settings))%list
  /\ (forall path,
         path <> "stderr.txt" -> path <> "stdout.txt" ->
         dict_get (files (snd (measure e dsn client_settings w))) path
         = dict_get (files w) path).
Proof.
  unfold outcome, events_of, measure, run_checked, path_open_w,
    run_checked_into, read_text, write_file, bind, emit, raise, ret.
  cbn [fst snd files trace app].
  destruct (raised (subprocess_run e _)) as [x|];
    [cbn [fst snd files trace app]; auto|].
  destruct (open_w e "stderr.txt") as [x|];
    [cbn [fst snd files trace app]; auto|].
  destruct (open_w e "stdout.txt") as [x|].
  { cbn [fst snd files trace app]; repeat split; auto.
    intros path H1 H2; now rewrite dict_get_set_other. }
  cbn [fst snd files trace app].
  destruct (raised (subprocess_run e _)) as [x|].
  { cbn [fst snd files trace app]; repeat split;
      [now rewrite <- app_assoc|].
    intros path H1 H2; now rewrite !dict_get_set_other. }
  cbn [fst snd files trace app].
  rewrite !dict_get_set_same, !parse_uniform.
  destruct (outcome (parse_pgbench_initialize_output _)) as [d|x].
  - unfold subscript, raise, ret.
    destruct (dict_get d "total"); cbn [fst snd files trace app];
      (repeat split; [now rewrite <- !app_assoc|]);
      intros path H1 H2; now rewrite !dict_get_set_other.
  - cbn [fst snd files trace app];
      (repeat split; [now rewrite <- !app_assoc|]);
      intros path H1 H2; now rewrite !dict_get_set_other.
Qed.

Lemma parse_events (output : string) :
  events_of (parse_pgbench_initialize_output output)
  = match outcome (parse_pgbench_initialize_output output) with
    | Raise (RuntimeError _) => [Printed output]
    | _ => []
    end.
Proof.
  unfold outcome, events_of, parse_pgbench_initialize_output, bind,
    index_last, print, emit, raise, ret.
  destruct (last_opt (splitlines output)) as [line|]; [|reflexivity].
  destruct (re_match 6 regex line) as [groups|]; [|reflexivity].
  destruct (map float (not_none groups))
    as [|v1 [|v2 [|v3 [|v4 [|v5 [|v6 [|]]]]]]]; reflexivity.
Qed.

Lemma measure_events_Ok (e : env) (dsn : string)
    (client_settings : dict string) (y : pyval) :
  outcome (measure e dsn client_settings) = Ok y ->
  events_of (measure e dsn client_settings)
  = [ Started (psql_argv dsn (set_command_of client_settings));
      Started (pgbench_argv dsn) ].
Proof.
  unfold outcome, events_of, measure, run_checked, path_open_w,
    run_checked_into, read_text, write_file, bind, emit, raise, ret,
    psql_argv, pgbench_argv.
  cbn [fst snd files trace app].
  destruct (raised (subprocess_run e _)) as [x|]; [discriminate|].
  destruct (open_w e "stderr.txt") as [x|]; [discriminate|].
  destruct (open_w e "stdout.txt") as [x|]; [discriminate|].
  cbn [fst snd files trace app].
  destruct (raised (subprocess_run e _)) as [x|]; [discriminate|].
  cbn [fst snd files trace app].
  rewrite !dict_get_set_same, !parse_uniform, parse_events.
  destruct (outcome (parse_pgbench_initialize_output _)) as [d|x];
    [|discriminate].
  unfold subscript, raise, ret.
  destruct (dict_get d "total"); [|discriminate].
  reflexivity.
Qed.


Lemma cleanup_events (e : env) (project_id : string) :
  events_of (cleanup e project_id)
  = Delete_project_called project_id ::
    match outcome (delete_project e project_id) with
    | Ok _ => Delete_project_returned project_id :: unlink_events e
    | Raise _ => []
    end.
Proof.
  pose proof (cleanup_cases e project_id) as C.
  apply (f_equal snd) in C; cbn [snd] in C; rewrite C; unfold unlink_events.
  destruct (outcome (delete_project e project_id)); [|reflexivity].
  destruct (unlink_error e "stderr.txt"); [reflexivity|].
  destruct (unlink_error e "stdout.txt"); reflexivity.
Qed.

Lemma cleanup_returns (e : env) (project_id : string) :
  (exists u, outcome (cleanup e project_id) = Ok u)
  <-> (exists a, outcome (delete_project e project_id) = Ok a)
      /\ unlink_error e "stderr.txt" = None
      /\ unlink_error e "stdout.txt" = None.
Proof.
  pose proof (cleanup_cases e project_id) as C.
  apply (f_equal fst) in C; cbn [fst] in C; rewrite C.
  destruct (outcome (delete_project e project_id)) as [a|x].
  - destruct (unlink_error e "stderr.txt");
      [|destruct (unlink_error e "stdout.txt")]; cbn [fst]; split;
      try (intros (u & H); discriminate H);
      try (intros (_ & H1 & H2); discriminate);
      eauto.
  - cbn [fst]; split; [intros (u & H); discriminate H|].
    intros ((a & H) & _); discriminate H.
Qed.


Lemma swept_frame (e : env) (project_id : string) (fs : dict string)
    (path : string) :
  path <> "stderr.txt" -> path <> "stdout.txt" ->
  dict_get (swept e project_id fs) path = dict_get fs path.
Proof.
  intros H1 H2; rewrite swept_cases.
  destruct (outcome (delete_project e project_id)); [|reflexivity].
  destruct (unlink_error e "stderr.txt"); [reflexivity|].
  destruct (unlink_error e "stdout.txt");
    now rewrite ?dict_get_remove_diff by assumption.
Qed.


Section TrialFacts.

Variable value : Type.
Variable str : value -> string.
Variable ALLOWED_SERVER_SETTINGS : list string.

Local Abbreviation split_options :=
  (split_options value str ALLOWED_SERVER_SETTINGS).
Local Abbreviation pgbench := (pgbench value str ALLOWED_SERVER_SETTINGS).

Lemma pgbench_world (e : env) (options : dict value) (w : world)
    (project_id dsn : string) :
  let server := fst (split_options options) in
  let client := snd (split_options options) in
  let w2 :=
    snd (measure e dsn client
           (mkWorld (files w)
              (trace w ++ [Create_project_called server;
                           Create_project_returned project_id dsn]))) in
  outcome (create_project e server) = Ok (project_id, dsn) ->
  pgbench e options w
  = (match outcome (cleanup e project_id) with
     | Ok _ => Ok (score_of (outcome (measure e dsn client)))
     | Raise x => Raise x
     end,
     mkWorld (swept e project_id (files w2))
       (trace w2 ++ diagnostic_of (outcome (measure e dsn client))
        ++ events_of (cleanup e project_id))).
Proof.
  unfold pgbench.
  destruct (split_options options) as [server client]; cbn [fst snd].
  intros Hc; unfold bind at 1; rewrite create_project_at, Hc.
  unfold try_except_finally.
  match goal with
  | |- context [measure e dsn client ?w1] =>
      destruct (measure_uniform e dsn client w1) as (Hr & _);
      destruct (measure e dsn client w1) as [r w2]
  end.
  cbn [fst snd] in *; subst r.
  destruct (outcome (measure e dsn client)) as [y|x];
    cbn [score_of diagnostic_of];
    unfold penalize, print, emit, bind, ret;
    cbn [files trace]; rewrite cleanup_at; cbn [files trace];
    destruct (outcome (cleanup e project_id));
    cbn [app]; rewrite <- ?app_assoc; reflexivity.
Qed.

Lemma trial_events (e : env) (options : dict value) (w : world)
    (project_id dsn : string) :
  let server := fst (split_options options) in
  let client := snd (split_options options) in
  outcome (create_project e server) = Ok (project_id, dsn) ->
  since w (snd (pgbench e options w))
  = ([Create_project_called server;
      Create_project_returned project_id dsn]
     ++ events_of (measure e dsn client)
     ++ diagnostic_of (outcome (measure e dsn client))
     ++ events_of (cleanup e project_id))%list.
Proof.
  intros server client Hc.
  rewrite (pgbench_world e options w project_id dsn Hc).
  fold server client.
  match goal with
  | |- context [measure e dsn client ?w1] =>
      destruct (measure_uniform e dsn client w1) as (_ & Ht & _)
  end.
  cbn [snd]; rewrite Ht; cbn [trace]; rewrite <- !app_assoc; apply since_app.
Qed.

End TrialFacts.

Section TrialProperties.

Variable value : Type.
Variable str : value -> string.
Variable ALLOWED_SERVER_SETTINGS : list string.

Local Abbreviation is_server_setting :=
  (is_server_setting ALLOWED_SERVER_SETTINGS).
Local Abbreviation split_options :=
  (split_options value str ALLOWED_SERVER_SETTINGS).
Local Abbreviation pgbench := (pgbench value str ALLOWED_SERVER_SETTINGS).


(** X10.  A trial whose first block returns a score, whose project is
    deleted and whose two files are unlinked leaves exactly eight events,
    in this order: the call and the return of [create_project], the
    start of the SQL client with one statement per client setting, the
    start of the benchmark on the same connection, the call and the
    return of [delete_project], the unlink of "stderr.txt" and the unlink
    of "stdout.txt"; nothing is printed. *)
Theorem measured_trial_events
    (e : env) (options : dict value) (w : world)
    (project_id dsn a : string) (y : pyval) :
  let server := fst (split_options options) in
  let client := snd (split_options options) in
  outcome (create_project e server) = Ok (project_id, dsn) ->
  outcome (measure e dsn client) = Ok y ->
  outcome (delete_project e project_id) = Ok a ->
  unlink_error e "stderr.txt" = None ->
  unlink_error e "stdout.txt" = None ->
  since w (snd (pgbench e options w))
  = [ Create_project_called server;
      Create_project_returned project_id dsn;
      Started (psql_argv dsn (set_command_of client));
      Started (pgbench_argv dsn);
      Delete_project_called project_id;
      Delete_project_returned project_id;
      Unlinked "stderr.txt";
      Unlinked "stdout.txt" ]
  /\ fst (pgbench e options w) = Ok y.
Proof.
  intros server client Hc Hm Hd H1 H2; unfold server, client in *.
  split.
  - rewrite (trial_events _ _ _ e options w project_id dsn Hc), Hm.
    rewrite cleanup_events, Hd; unfold unlink_events; rewrite H1, H2.
    now rewrite (measure_events_Ok _ _ _ _ Hm).
  - rewrite (pgbench_world _ _ _ e options w project_id dsn Hc), Hm.
    destruct (proj2 (cleanup_returns e project_id)) as (u & ->);
      [eauto | reflexivity].
Qed.

(** X11.  Whatever happens in a trial, a file of the working directory
    other than "stderr.txt" and "stdout.txt" is after the trial what it
    was before. *)
Theorem other_files_untouched
    (e : env) (options : dict value) (w : world) (path : string) :
  path <> "stderr.txt" -> path <> "stdout.txt" ->
  dict_get (files (snd (pgbench e options w))) path = dict_get (files w) path.
Proof.
  intros H1 H2.
  destruct (outcome (create_project e (fst (split_options options))))
    as [[project_id dsn]|x] eqn:Hc.
  - rewrite (pgbench_world _ _ _ e options w project_id dsn Hc).
    match goal with
    | |- context [measure e dsn ?c ?w1] =>
        destruct (measure_uniform e dsn c w1) as (_ & _ & Hf)
    end.
    cbn [snd files]; rewrite swept_frame by assumption; now rewrite Hf.
  - pose proof (pgbench_at value str ALLOWED_SERVER_SETTINGS e options w)
      as P; cbn zeta in P.
    rewrite Hc in P; now rewrite P.
Qed.


(** X13.  When the remote side creates the project but the answer holds
    no role other than "web_access", [create_project] raises
    [IndexError] after the creation, [pgbench] raises it too, and
    [delete_project] is never called for that project. *)
Theorem unusable_project_is_not_deleted
    (e : env) (options : dict value) (w : world)
    (r : response document) (p : project) :
  post_projects e (fst (split_options options)) = Answered r ->
  ok r = true -> json r = Ok (Well_shaped p) ->
  (forall role, In role (roles p) -> name role = "web_access") ->
  fst (pgbench e options w) = Raise IndexError
  /\ since w (snd (pgbench e options w))
     = [Create_project_called (fst (split_options options))]
  /\ count is_destroy_call (since w (snd (pgbench e options w))) = 0%nat.
Proof.
  intros Hp Hok Hj Hr.
  assert (Hc : outcome (create_project e (fst (split_options options)))
               = Raise IndexError).
  { unfold outcome, create_project, bind, emit, requests_post, response_json,
      index_first, raise, ret; cbn [fst snd files trace].
    rewrite Hp; cbn [fst]; rewrite Hok; cbn [negb fst]; rewrite Hj.
    now rewrite (proj2 (usable_roles_nil (roles p)) Hr). }
  pose proof (pgbench_at value str ALLOWED_SERVER_SETTINGS e options w)
      as P; cbn zeta in P.
  rewrite Hc in P; rewrite P; cbn [fst snd]; rewrite since_app; auto.
Qed.

(** X14.  A score that [pgbench] returns is the penalty 200 or a float
    that is zero or more. *)
Theorem score_is_penalty_or_nonnegative
    (e : env) (options : dict value) (w : world) (y : pyval) :
  fst (pgbench e options w) = Ok y ->
  y = PyInt 200 \/ exists q, y = PyFloat q /\ 0 <= q.
Proof.
  destruct (outcome (create_project e (fst (split_options options))))
    as [[project_id dsn]|x] eqn:Hc.
  - rewrite (pgbench_world _ _ _ e options w project_id dsn Hc).
    destruct (outcome (cleanup e project_id)); [|discriminate].
    cbn [fst]; intros H; inversion H; subst; clear H.
    destruct (outcome (measure e dsn _)) as [y|x] eqn:Hm; [|now left].
    right; cbn [score_of].
    apply measure_Ok_inv in Hm as (line & t & others & _ & Hm & ->).
    apply re_match_sound in Hm as (pre & rest & _ & Mw).
    apply regex_groups in Mw as (t' & o1 & o2 & o3 & o4 & o5 & E & Dt & _).
    inversion E; subst; eauto using float_nonneg.
  - pose proof (pgbench_at value str ALLOWED_SERVER_SETTINGS e options w)
      as P; cbn zeta in P.
    rewrite Hc in P; rewrite P; discriminate.
Qed.

End TrialProperties.

(** ** More on the settings *)

Lemma has_key_app {V} (d d' : dict V) (key : string) :
  has_key (d ++ d')%list key = has_key d key || has_key d' key.
Proof. unfold has_key, keys; now rewrite map_app, existsb_app. Qed.

Lemma dict_set_fresh {V} (d : dict V) (key : string) (v : V) :
  has_key d key = false -> dict_set d key v = (d ++ [(key, v)])%list.
Proof.
  unfold has_key, keys; induction d as [|[k u] d IH]; simpl; [reflexivity|].
  intros H; apply orb_false_elim in H as [Hk Hd].
  rewrite String.eqb_sym, Hk; now rewrite (IH Hd).
Qed.

Lemma concat_cons (x : string) (xs : list string) :
  String.concat "" (x :: xs) = x ++ String.concat "" xs.
Proof. destruct xs; simpl; [now rewrite append_empty_r | reflexivity]. Qed.

Lemma set_command_from (client_settings : dict string) (acc : string) :
  fold_left
    (fun set_command kv =>
       set_command ++ "ALTER DATABASE main SET " ++ fst kv ++ "="
         ++ snd kv ++ ";")
    client_settings acc
  = acc ++ String.concat "" (map statement client_settings).
Proof.
  revert acc; induction client_settings as [|kv rest IH]; intros acc.
  - simpl; now rewrite append_empty_r.
  - cbn [fold_left map]; rewrite IH, concat_cons, append_assoc; reflexivity.
Qed.

(** X16.  The configuration command is the concatenation, in the order of
    the client settings, of one statement "ALTER DATABASE main SET
    <name>=<value>;" per setting, name and value copied as they are; it
    is empty when there is no client setting. *)
Theorem set_command_is_concatenation (client_settings : dict string) :
  set_command_of client_settings
  = String.concat "" (map statement client_settings)
  /\ forall more,
       set_command_of (client_settings ++ more)%list
       = set_command_of client_settings ++ set_command_of more.
Proof.
  assert (H : forall d, set_command_of d = String.concat "" (map statement d)).
  { intros d; unfold set_command_of; now rewrite set_command_from. }
  split; [apply H|].
  intros more; unfold set_command_of at 1.
  now rewrite fold_left_app, !set_command_from, <- !H.
Qed.

Section SettingsProperties.

Variable value : Type.
Variable str : value -> string.
Variable ALLOWED_SERVER_SETTINGS : list string.

Local Abbreviation is_server_setting :=
  (is_server_setting ALLOWED_SERVER_SETTINGS).
Local Abbreviation classify := (classify value str ALLOWED_SERVER_SETTINGS).
Local Abbreviation split_options :=
  (split_options value str ALLOWED_SERVER_SETTINGS).

Lemma classify_fresh (options : dict value) :
  forall server client : dict string,
    NoDup (keys options) ->
    (forall key, In key (keys options) ->
                 has_key server key = false /\ has_key client key = false) ->
    fold_left classify options (server, client)
    = ((server
        ++ map (rendered str)
             (filter (fun kv => is_server_setting (fst kv)) options))%list,
       (client
        ++ map (rendered str)
             (filter (fun kv => negb (is_server_setting (fst kv)))
                options))%list).
Proof.
  induction options as [|[k v] options IH]; intros server client Hnd Hfresh.
  - simpl; now rewrite !app_nil_r.
  - simpl in Hnd; inversion Hnd as [|? ? Hk Hnd']; subst.
    destruct (Hfresh k (or_introl eq_refl)) as [Hs Hc].
    assert (Hother : forall key, In key (keys options) ->
                       String.eqb key k = false).
    { intros key Hin; apply String.eqb_neq; intros ->; contradiction. }
    cbn [fold_left classify filter fst snd].
    destruct (is_server_setting k) eqn:E; cbn [negb map].
    + rewrite (dict_set_fresh server k (str v) Hs), IH; [|assumption|].
      * now rewrite <- app_assoc.
      * intros key Hin; destruct (Hfresh key (or_intror Hin)) as [Hs' Hc'].
        split; [|assumption].
        rewrite has_key_app, Hs'; unfold has_key; simpl.
        now rewrite (Hother key Hin).
    + rewrite (dict_set_fresh client k (str v) Hc), IH; [|assumption|].
      * now rewrite <- app_assoc.
      * intros key Hin; destruct (Hfresh key (or_intror Hin)) as [Hs' Hc'].
        split; [assumption|].
        rewrite has_key_app, Hc'; unfold has_key; simpl.
        now rewrite (Hother key Hin).
Qed.

(** X15.  For a trial point whose names are distinct, as the keyword
    arguments of a call are, the server settings are the options whose
    name is in [ALLOWED_SERVER_SETTINGS] and the client settings are the
    other options, each list in the order of the options and each value
    rendered by [str]. *)
Theorem split_options_filters (options : dict value) :
  NoDup (keys options) ->
  split_options options
  = (map (rendered str)
       (filter (fun kv => is_server_setting (fst kv)) options),
     map (rendered str)
       (filter (fun kv => negb (is_server_setting (fst kv))) options)).
Proof.
  intros Hnd; unfold split_options.
  exact (classify_fresh options [] [] Hnd
           (fun key _ => conj eq_refl eq_refl)).
Qed.

End SettingsProperties.

(** ** The further properties on the scenarios *)

Module RunMore.
Import Scenario Cases.

Ltac is_decimal n f :=
  exists n, f; split; [reflexivity|]; split; [discriminate|];
  split; [discriminate|]; split; reflexivity.

(** [repr] on texts with quotes, a backslash and characters that are not
    printable. *)
Example repr_examples :
  repr_str "proj-1" = "'proj-1'"
  /\ repr_str "it's" = String double_quote ("it's" ++ String double_quote "")
  /\ repr_str ("say " ++ String double_quote "hi")
     = "'say " ++ String double_quote "hi'"
  /\ repr_str ("it's " ++ String double_quote "")
     = "'it\'s " ++ String double_quote "'"
  /\ repr_str "a\b" = "'a\\b'"
  /\ repr_str ("a" ++ String "010" "b") = "'a\nb'"
  /\ repr_str (String "000" (String "127" (String "160" (String "173" ""))))
     = "'\x00\x7f\xa0\xad'"
  /\ repr_str (String "233" "") = String "'" (String "233" "'")
  /\ repr_dict [("a", "b"); ("c", "it's")]
     = "{'a': 'b', 'c': " ++ String double_quote "it's"
       ++ String double_quote "}".
Proof. repeat split. Qed.

(** With "stderr.txt" a directory the file cannot be opened, so the first
    block raises and the penalty is prepared; the project is deleted;
    then the unlink of "stderr.txt" raises, "stdout.txt" is not reached
    and the exception leaves [pgbench]. *)
Example unlink_failure_leaves_pgbench :
  pgbench string text_of allowed stderr_is_directory point empty_world
  = (Raise is_a_directory,
     mkWorld []
       [ Create_project_called [("shared_buffers", "128MB")];
         Create_project_returned "proj-1" "postgres://alice@host/main";
         Started (psql_argv "postgres://alice@host/main"
                    "ALTER DATABASE main SET work_mem=4MB;");
         Printed "[Errno 21] Is a directory: 'stderr.txt'";
         Delete_project_called "proj-1";
         Delete_project_returned "proj-1" ]).
Proof. reflexivity. Qed.

Lemma parse_accepts_full_report_witness :
  last_opt (splitlines (progress ++ LF ++ full_report ++ LF))
  = Some (full_line "12.50" "1.00" "2.00" "5.50" "3.00" "0.01"
            ", " ", " ", " ", " "" ++ "")
  /\ parse_pgbench_initialize_output (progress ++ LF ++ full_report ++ LF)
       empty_world
     = (Ok (timings_of "12.50" "1.00" "2.00" "5.50" "3.00" "0.01"),
        empty_world).
Proof.
  split; [reflexivity|].
  apply (parse_accepts_full_report _ "12.50" "1.00" "2.00" "5.50" "3.00"
           "0.01" ", " ", " ", " ", " "" "").
  - reflexivity.
  - repeat split;
      [ is_decimal "12" "50" | is_decimal "1" "00" | is_decimal "2" "00"
      | is_decimal "5" "50" | is_decimal "3" "00" | is_decimal "0" "01" ].
  - repeat split; try (now right); now left.
Defined.

Lemma parse_reads_last_line_witness :
  full_report <> "" /\ no_boundary full_report = true /\ line_end LF
  /\ fst (parse_pgbench_initialize_output
            (progress ++ LF ++ full_report ++ LF) empty_world)
     = fst (parse_pgbench_initialize_output full_report empty_world).
Proof.
  assert (H1 : full_report <> "") by discriminate.
  assert (H2 : no_boundary full_report = true) by reflexivity.
  assert (H3 : line_end LF) by (right; now left).
  split; [exact H1|]. split; [exact H2|]. split; [exact H3|].
  exact (proj1 (proj2 (proj2 (parse_reads_last_line progress full_report LF
                                empty_world H1 H2 H3)))).
Defined.

Lemma parsed_timings_are_nonnegative_witness :
  parse_pgbench_initialize_output full_report empty_world
  = (Ok (timings_of "12.50" "1.00" "2.00" "5.50" "3.00" "0.01"), empty_world)
  /\ forall (key : string) (v : Q),
       In (key, v) (timings_of "12.50" "1.00" "2.00" "5.50" "3.00" "0.01") ->
       0 <= v.
Proof.
  split; [reflexivity|].
  exact (parsed_timings_are_nonnegative full_report empty_world empty_world
           _ eq_refl).
Defined.

Lemma unpack_error_bounds_witness :
  parse_pgbench_initialize_output partial_report empty_world
  = (Raise (ValueError_unpack 6 4), empty_world)
  /\ 6%nat = 6%nat /\ (1 <= 4 <= 5)%nat /\ empty_world = empty_world.
Proof.
  split; [reflexivity|].
  exact (unpack_error_bounds partial_report empty_world empty_world 6 4
           eq_refl).
Defined.

Lemma create_project_failures_witness :
  outcome (create_project no_project [("shared_buffers", "128MB")])
  = Raise (RuntimeError
             ("Can't create project with settings="
              ++ "{'shared_buffers': '128MB'}, quota exceeded"))
  /\ outcome (create_project no_roles_key [("shared_buffers", "128MB")])
     = Raise (KeyError "roles").
Proof.
  split; [reflexivity|].
  apply (proj2 (create_project_failures no_roles_key
                  [("shared_buffers", "128MB")] (KeyError "roles"))).
  do 3 right; left.
  exists (mkResponse true "" (Ok (Ill_shaped (Missing_key "roles")))),
    (Missing_key "roles").
  repeat split.
Defined.


Lemma measured_trial_events_witness :
  outcome (create_project fine [("shared_buffers", "128MB")])
  = Ok ("proj-1", "postgres://alice@host/main")
  /\ outcome (measure fine "postgres://alice@host/main" [("work_mem", "4MB")])
     = Ok (PyFloat (25 # 2))
  /\ outcome (delete_project fine "proj-1") = Ok "{}"
  /\ unlink_error fine "stderr.txt" = None
  /\ unlink_error fine "stdout.txt" = None
  /\ since empty_world
       (snd (pgbench string text_of allowed fine point empty_world))
     = [ Create_project_called [("shared_buffers", "128MB")];
         Create_project_returned "proj-1" "postgres://alice@host/main";
         Started (psql_argv "postgres://alice@host/main"
                    "ALTER DATABASE main SET work_mem=4MB;");
         Started (pgbench_argv "postgres://alice@host/main");
         Delete_project_called "proj-1";
         Delete_project_returned "proj-1";
         Unlinked "stderr.txt"; Unlinked "stdout.txt" ].
Proof.
  split; [reflexivity|]. split; [reflexivity|]. split; [reflexivity|].
  split; [reflexivity|]. split; [reflexivity|].
  exact (proj1 (measured_trial_events string text_of allowed fine point
                  empty_world "proj-1" "postgres://alice@host/main" "{}"
                  (PyFloat (25 # 2))
                  eq_refl eq_refl eq_refl eq_refl eq_refl)).
Defined.

Lemma other_files_untouched_witness :
  "notes.txt" <> "stderr.txt" /\ "notes.txt" <> "stdout.txt"
  /\ dict_get
       (files (snd (pgbench string text_of allowed fine point busy_world)))
       "notes.txt"
     = Some "keep".
Proof.
  assert (H1 : "notes.txt" <> "stderr.txt") by discriminate.
  assert (H2 : "notes.txt" <> "stdout.txt") by discriminate.
  split; [exact H1|]. split; [exact H2|].
  exact (other_files_untouched string text_of allowed fine point busy_world
           "notes.txt" H1 H2).
Defined.

Lemma unusable_project_is_not_deleted_witness :
  post_projects no_usable_role [("shared_buffers", "128MB")]
  = Answered (mkResponse true "" (Ok (Well_shaped web_only)))
  /\ (forall role, In role (roles web_only) -> name role = "web_access")
  /\ fst (pgbench string text_of allowed no_usable_role point empty_world)
     = Raise IndexError
  /\ count is_destroy_call
       (since empty_world
          (snd (pgbench string text_of allowed no_usable_role point
                  empty_world)))
     = 0%nat.
Proof.
  assert (Hr : forall role, In role (roles web_only) ->
                 name role = "web_access").
  { intros role [<-|[]]; reflexivity. }
  split; [reflexivity|]. split; [exact Hr|].
  destruct (unusable_project_is_not_deleted string text_of allowed
              no_usable_role point empty_world _ web_only
              eq_refl eq_refl eq_refl Hr) as (H1 & _ & H3).
  split; assumption.
Defined.

Lemma score_is_penalty_or_nonnegative_witness :
  fst (pgbench string text_of allowed fine point empty_world)
  = Ok (PyFloat (25 # 2))
  /\ (PyFloat (25 # 2) = PyInt 200
      \/ exists q, PyFloat (25 # 2) = PyFloat q /\ 0 <= q).
Proof.
  split; [reflexivity|].
  exact (score_is_penalty_or_nonnegative string text_of allowed fine point
           empty_world _ eq_refl).
Defined.

Lemma split_options_filters_witness :
  NoDup (keys point)
  /\ split_options string text_of allowed point
     = ([("shared_buffers", "128MB")], [("work_mem", "4MB")]).
Proof.
  assert (H : NoDup (keys point)).
  { repeat constructor; simpl; intuition discriminate. }
  split; [exact H|].
  exact (split_options_filters string text_of allowed point H).
Defined.

End RunMore.
